(** * Veles: a shallow embedding of the stencil-portal renderer

    The TypeScript sources are embedded function by function.  JavaScript's
    [number] is kept abstract behind the class [Number], so that every
    function of the program is written once and can be run under two
    readings of its arithmetic:

    - [IEEE.number]: binary64 floats (Rocq's primitive floats), with
      [Float32Array] stores rounding to binary32, and the host's
      [Math.sin], [Math.cos], [Math.tan] taken as a parameter outside the
      arguments where ECMAScript fixes their result;
    - [Exact.number]: the real numbers, without rounding.

    Integer-valued numbers that only count (loop counters, array lengths,
    vertex indices, stencil references) are embedded as [nat] or [Z]. *)

From stdpp Require Import base list gmap.
From Stdlib Require Import ZArith Floats Reals Lra Lia.

Set Default Proof Using "Type".
#[local] Set Warnings "-inexact-float".

(** ** Numbers *)

(** The value of [Math.floor(x)]: an integer, or one of the three values
    that [Math.floor] returns unchanged. *)
Inductive jsint : Type :=
  | Int (z : Z)
  | IntNaN
  | IntPosInf
  | IntNegInf.

Class Number (N : Type) : Type := {
  num_of_Z : Z -> N;
  num_add : N -> N -> N;
  num_sub : N -> N -> N;
  num_mul : N -> N -> N;
  num_div : N -> N -> N;
  num_neg : N -> N;
  num_ltb : N -> N -> bool;
  num_eqb : N -> N -> bool;
  Math_sqrt : N -> N;
  Math_sin : N -> N;
  Math_cos : N -> N;
  Math_tan : N -> N;
  Math_PI : N;
  Math_floor : N -> jsint;
  Math_fround : N -> N;
}.

Declare Scope num_scope.
Delimit Scope num_scope with num.
Notation "x + y" := (num_add x y) : num_scope.
Notation "x - y" := (num_sub x y) : num_scope.
Notation "x * y" := (num_mul x y) : num_scope.
Notation "x / y" := (num_div x y) : num_scope.
Notation "- x" := (num_neg x) : num_scope.
Notation "x <? y" := (num_ltb x y) : num_scope.
Notation "x === y" := (num_eqb x y) (at level 70, no associativity) : num_scope.

(** An integer literal, and a decimal literal [n/d] with [d] a power of
    ten (in binary64 the quotient of two small integers is the double
    nearest to the decimal, which is how a literal is read). *)
Definition lit {N : Type} {num : Number N} (n : Z) : N := num_of_Z n.
Definition dec {N : Type} {num : Number N} (n d : Z) : N := (num_of_Z n / num_of_Z d)%num.

(** [Math.max(lo, Math.floor(x))] for an integer literal [lo]. *)
Definition Math_max (lo : Z) (x : jsint) : jsint :=
  match x with
  | Int z => Int (Z.max lo z)
  | IntNaN => IntNaN
  | IntPosInf => IntPosInf
  | IntNegInf => Int lo
  end.

(** ** Typed arrays *)

Section TypedArrays.
Context {N : Type} {num : Number N}.

(** [new Float32Array(n)] *)
Definition Float32Array_new (n : nat) : list N := replicate n (lit 0).

(** [new Float32Array([...])]: every element is rounded to binary32. *)
Definition Float32Array_from (xs : list N) : list N := Math_fround <$> xs.

(** [a[i] = v] on a [Float32Array]; an index past the end is ignored. *)
Definition f32_store (a : list N) (i : nat) (v : N) : list N :=
  <[i := Math_fround v]> a.

(** [a[i]] for an index within the array (every read of the program is). *)
Definition f32_get (a : list N) (i : nat) : N := nth i a (lit 0).

(** [new Uint16Array([...])] of integers: each is reduced modulo 2^16. *)
Definition Uint16Array_from (xs : list Z) : list Z :=
  (fun z => z mod 65536)%Z <$> xs.
End TypedArrays.

(** ** types.ts *)

Module Vec3.
Record t (N : Type) : Type := mk { x : N; y : N; z : N }.
Arguments mk {N} x y z.
Arguments x {N} _.
Arguments y {N} _.
Arguments z {N} _.
End Vec3.

Module Vec4.
Record t (N : Type) : Type := mk { x : N; y : N; z : N; w : N }.
Arguments mk {N} x y z w.
Arguments x {N} _.
Arguments y {N} _.
Arguments z {N} _.
Arguments w {N} _.
End Vec4.

(** ** utils/math.ts *)

Section Math.
Context {N : Type} {num : Number N}.
Local Open Scope num_scope.

Definition createIdentityMatrix : list N :=
  let matrix := Float32Array_new 16 in
  let matrix := f32_store matrix 0 (lit 1) in
  let matrix := f32_store matrix 5 (lit 1) in
  let matrix := f32_store matrix 10 (lit 1) in
  let matrix := f32_store matrix 15 (lit 1) in
  matrix.

Definition createProjectionMatrix (fov aspect near far : N) : list N :=
  let f := lit 1 / Math_tan (fov / lit 2) in
  let nf := lit 1 / (near - far) in
  let matrix := Float32Array_new 16 in
  let matrix := f32_store matrix 0 (f / aspect) in
  let matrix := f32_store matrix 5 f in
  let matrix := f32_store matrix 10 ((far + near) * nf) in
  let matrix := f32_store matrix 11 (- lit 1) in
  let matrix := f32_store matrix 14 (lit 2 * far * near * nf) in
  let matrix := f32_store matrix 15 (lit 0) in
  matrix.

Definition crossProduct (a b : Vec3.t N) : Vec3.t N :=
  Vec3.mk
    (Vec3.y a * Vec3.z b - Vec3.z a * Vec3.y b)
    (Vec3.z a * Vec3.x b - Vec3.x a * Vec3.z b)
    (Vec3.x a * Vec3.y b - Vec3.y a * Vec3.x b).

Definition dotProduct (a b : Vec3.t N) : N :=
  Vec3.x a * Vec3.x b + Vec3.y a * Vec3.y b + Vec3.z a * Vec3.z b.

(** The [length] of [normalizeVector]. *)
Definition vectorLength (v : Vec3.t N) : N :=
  Math_sqrt (Vec3.x v * Vec3.x v + Vec3.y v * Vec3.y v + Vec3.z v * Vec3.z v).

Definition normalizeVector (v : Vec3.t N) : Vec3.t N :=
  let length := vectorLength v in
  if length === lit 0 then Vec3.mk (lit 0) (lit 0) (lit 0)
  else Vec3.mk (Vec3.x v / length) (Vec3.y v / length) (Vec3.z v / length).

Definition createViewMatrix (position target up : Vec3.t N) : list N :=
  let zAxis := normalizeVector
    (Vec3.mk (Vec3.x position - Vec3.x target)
             (Vec3.y position - Vec3.y target)
             (Vec3.z position - Vec3.z target)) in
  let xAxis := normalizeVector (crossProduct up zAxis) in
  let yAxis := normalizeVector (crossProduct zAxis xAxis) in
  let matrix := Float32Array_new 16 in
  let matrix := f32_store matrix 0 (Vec3.x xAxis) in
  let matrix := f32_store matrix 1 (Vec3.x yAxis) in
  let matrix := f32_store matrix 2 (Vec3.x zAxis) in
  let matrix := f32_store matrix 3 (lit 0) in
  let matrix := f32_store matrix 4 (Vec3.y xAxis) in
  let matrix := f32_store matrix 5 (Vec3.y yAxis) in
  let matrix := f32_store matrix 6 (Vec3.y zAxis) in
  let matrix := f32_store matrix 7 (lit 0) in
  let matrix := f32_store matrix 8 (Vec3.z xAxis) in
  let matrix := f32_store matrix 9 (Vec3.z yAxis) in
  let matrix := f32_store matrix 10 (Vec3.z zAxis) in
  let matrix := f32_store matrix 11 (lit 0) in
  let matrix := f32_store matrix 12 (- dotProduct xAxis position) in
  let matrix := f32_store matrix 13 (- dotProduct yAxis position) in
  let matrix := f32_store matrix 14 (- dotProduct zAxis position) in
  let matrix := f32_store matrix 15 (lit 1) in
  matrix.

(** The defaults of [createViewMatrix]'s [target] and [up]. *)
Definition origin : Vec3.t N := Vec3.mk (lit 0) (lit 0) (lit 0).
Definition up_default : Vec3.t N := Vec3.mk (lit 0) (lit 1) (lit 0).

Definition createRotationYMatrix (angle : N) : list N :=
  let matrix := createIdentityMatrix in
  let c := Math_cos angle in
  let s := Math_sin angle in
  let matrix := f32_store matrix 0 c in
  let matrix := f32_store matrix 2 (- s) in
  let matrix := f32_store matrix 8 s in
  let matrix := f32_store matrix 10 c in
  matrix.

Definition createRotationXMatrix (angle : N) : list N :=
  let matrix := createIdentityMatrix in
  let c := Math_cos angle in
  let s := Math_sin angle in
  let matrix := f32_store matrix 5 c in
  let matrix := f32_store matrix 6 s in
  let matrix := f32_store matrix 9 (- s) in
  let matrix := f32_store matrix 10 c in
  matrix.

Definition createRotationZMatrix (angle : N) : list N :=
  let matrix := createIdentityMatrix in
  let c := Math_cos angle in
  let s := Math_sin angle in
  let matrix := f32_store matrix 0 c in
  let matrix := f32_store matrix 1 s in
  let matrix := f32_store matrix 4 (- s) in
  let matrix := f32_store matrix 5 c in
  matrix.

(** The three nested [for] loops of [multiplyMatrices], each over 0..3. *)
Definition multiplyMatrices (a b : list N) : list N :=
  foldl (fun result i =>
    foldl (fun result j =>
      let sum :=
        foldl (fun sum k =>
                 sum + f32_get a (i * 4 + k) * f32_get b (k * 4 + j))
              (lit 0) (seq 0 4) in
      f32_store result (i * 4 + j) sum)
    result (seq 0 4))
  (Float32Array_new 16) (seq 0 4).

Definition createRotationMatrix (x y z : N) : list N :=
  let rx := createRotationXMatrix x in
  let ry := createRotationYMatrix y in
  let rz := createRotationZMatrix z in
  let temp := multiplyMatrices ry rz in
  multiplyMatrices rx temp.
End Math.

(** ** The GPU device

    The part of WebGPU the program uses: buffers addressed by handle, the
    queue's [writeBuffer], and the commands recorded in a render pass. *)

Module GPU.
Inductive BufferUsage : Type := VERTEX | INDEX | UNIFORM.

(** What a buffer holds: 32-bit floats (4 bytes each) or 16-bit unsigned
    integers (2 bytes each). *)
Inductive BufferData (N : Type) : Type :=
  | Float32Data (xs : list N)
  | Uint16Data (xs : list Z).
Arguments Float32Data {N} xs.
Arguments Uint16Data {N} xs.

Inductive BindGroupLayout : Type :=
  | cameraBindGroupLayout
  | transformBindGroupLayout.

(** [device.createBindGroup({layout, entries: [{binding: 0, resource: {buffer}}]})] *)
Record BindGroup : Type := {
  layout : BindGroupLayout;
  buffer : nat;
}.

Inductive Pipeline : Type :=
  | stencilPipeline
  | objectPipeline
  | transparentPipeline.

(** The calls made on a [GPURenderPassEncoder]. *)
Inductive RenderCommand : Type :=
  | setPipeline (pipeline : Pipeline)
  | setStencilReference (reference : nat)
  | setBindGroup (index : nat) (bindGroup : BindGroup)
  | setVertexBuffer (slot : nat) (buffer : nat)
  | setIndexBuffer (buffer : nat)
  | drawIndexed (indexCount : nat).

Record Device (N : Type) : Type := {
  buffers : gmap nat (BufferData N);
  nextBuffer : nat;
  submitted : list (list RenderCommand);
}.
Arguments buffers {N} _.
Arguments nextBuffer {N} _.
Arguments submitted {N} _.

Section Queue.
Context {N : Type} {num : Number N}.

(** [navigator.gpu.requestAdapter().requestDevice()] *)
Definition requestDevice : Device N :=
  {| buffers := ∅; nextBuffer := 0; submitted := [] |}.

(** [device.createBuffer({size, usage})]: [size] bytes, zero-filled. *)
Definition createBuffer (size : nat) (usage : BufferUsage)
    (device : Device N) : nat * Device N :=
  let data :=
    match usage with
    | INDEX => Uint16Data (replicate (size / 2) 0%Z)
    | VERTEX | UNIFORM => Float32Data (replicate (size / 4) (lit 0))
    end in
  (nextBuffer device,
   {| buffers := <[nextBuffer device := data]> (buffers device);
      nextBuffer := S (nextBuffer device);
      submitted := submitted device |}).

(** The elements [new] written over [old] from element [first] on. *)
Definition overwrite {A : Type} (old : list A) (first : nat) (new : list A)
    : list A :=
  take first old ++ new ++ drop (first + length new) old.

(** [device.queue.writeBuffer(buffer, bufferOffset, data, dataOffset, size)]:
    [bufferOffset] in bytes, [dataOffset] and [size] in elements of
    [data].  A write that does not fit the buffer is a validation
    error and leaves the buffer as it was. *)
Definition writeBuffer (buffer bufferOffset : nat) (data : BufferData N)
    (dataOffset size : nat) (device : Device N) : Device N :=
  let stored (contents : BufferData N) :=
    {| buffers := <[buffer := contents]> (buffers device);
       nextBuffer := nextBuffer device;
       submitted := submitted device |} in
  match buffers device !! buffer, data with
  | Some (Float32Data old), Float32Data src =>
      let src := take size (drop dataOffset src) in
      let first := bufferOffset / 4 in
      if decide (first + length src ≤ length old)
      then stored (Float32Data (overwrite old first src))
      else device
  | Some (Uint16Data old), Uint16Data src =>
      let src := take size (drop dataOffset src) in
      let first := bufferOffset / 2 in
      if decide (first + length src ≤ length old)
      then stored (Uint16Data (overwrite old first src))
      else device
  | _, _ => device
  end.

(** [device.queue.writeBuffer(buffer, bufferOffset, data)]: all of [data]. *)
Definition writeBufferAll (buffer bufferOffset : nat) (data : BufferData N)
    (device : Device N) : Device N :=
  let size :=
    match data with
    | Float32Data xs => length xs
    | Uint16Data xs => length xs
    end in
  writeBuffer buffer bufferOffset data 0 size device.

(** [byteLength] of a typed array. *)
Definition byteLength (data : BufferData N) : nat :=
  match data with
  | Float32Data xs => 4 * length xs
  | Uint16Data xs => 2 * length xs
  end.

(** [device.queue.submit([commandEncoder.finish()])] *)
Definition submit (commands : list RenderCommand) (device : Device N)
    : Device N :=
  {| buffers := buffers device;
     nextBuffer := nextBuffer device;
     submitted := submitted device ++ [commands] |}.

(** The [count] floats found [byteOffset] bytes into a buffer. *)
Definition readFloats (buffer byteOffset count : nat) (device : Device N)
    : option (list N) :=
  match buffers device !! buffer with
  | Some (Float32Data xs) => Some (take count (drop (byteOffset / 4) xs))
  | _ => None
  end.
End Queue.

(** *** Draws of a render pass

    A draw call is made with the pipeline, stencil reference, bind groups
    and buffers that were set last; [draws] replays a pass and lists its
    draw calls, each with that state. *)
Record Draw : Type := {
  pipeline : option Pipeline;
  stencilReference : nat;
  bindGroup0 : option BindGroup;
  bindGroup1 : option BindGroup;
  vertexBuffer0 : option nat;
  vertexBuffer1 : option nat;
  indexBuffer : option nat;
  indexCount : nat;
}.

(** The state of a pass before any command: nothing bound, reference 0. *)
Definition unbound : Draw :=
  {| pipeline := None; stencilReference := 0;
     bindGroup0 := None; bindGroup1 := None;
     vertexBuffer0 := None; vertexBuffer1 := None;
     indexBuffer := None; indexCount := 0 |}.

Definition execute (state : Draw) (command : RenderCommand) : Draw :=
  match command with
  | setPipeline p =>
      {| pipeline := Some p; stencilReference := stencilReference state;
         bindGroup0 := bindGroup0 state; bindGroup1 := bindGroup1 state;
         vertexBuffer0 := vertexBuffer0 state;
         vertexBuffer1 := vertexBuffer1 state;
         indexBuffer := indexBuffer state; indexCount := indexCount state |}
  | setStencilReference r =>
      {| pipeline := pipeline state; stencilReference := r;
         bindGroup0 := bindGroup0 state; bindGroup1 := bindGroup1 state;
         vertexBuffer0 := vertexBuffer0 state;
         vertexBuffer1 := vertexBuffer1 state;
         indexBuffer := indexBuffer state; indexCount := indexCount state |}
  | setBindGroup i g =>
      {| pipeline := pipeline state;
         stencilReference := stencilReference state;
         bindGroup0 := if decide (i = 0) then Some g else bindGroup0 state;
         bindGroup1 := if decide (i = 1) then Some g else bindGroup1 state;
         vertexBuffer0 := vertexBuffer0 state;
         vertexBuffer1 := vertexBuffer1 state;
         indexBuffer := indexBuffer state; indexCount := indexCount state |}
  | setVertexBuffer i b =>
      {| pipeline := pipeline state;
         stencilReference := stencilReference state;
         bindGroup0 := bindGroup0 state; bindGroup1 := bindGroup1 state;
         vertexBuffer0 := if decide (i = 0) then Some b else vertexBuffer0 state;
         vertexBuffer1 := if decide (i = 1) then Some b else vertexBuffer1 state;
         indexBuffer := indexBuffer state; indexCount := indexCount state |}
  | setIndexBuffer b =>
      {| pipeline := pipeline state;
         stencilReference := stencilReference state;
         bindGroup0 := bindGroup0 state; bindGroup1 := bindGroup1 state;
         vertexBuffer0 := vertexBuffer0 state;
         vertexBuffer1 := vertexBuffer1 state;
         indexBuffer := Some b; indexCount := indexCount state |}
  | drawIndexed n =>
      {| pipeline := pipeline state;
         stencilReference := stencilReference state;
         bindGroup0 := bindGroup0 state; bindGroup1 := bindGroup1 state;
         vertexBuffer0 := vertexBuffer0 state;
         vertexBuffer1 := vertexBuffer1 state;
         indexBuffer := indexBuffer state; indexCount := n |}
  end.

Fixpoint draws_from (state : Draw) (commands : list RenderCommand)
    : list Draw :=
  match commands with
  | [] => []
  | command :: commands =>
      let state := execute state command in
      match command with
      | drawIndexed _ => state :: draws_from state commands
      | _ => draws_from state commands
      end
  end.

Definition draws (commands : list RenderCommand) : list Draw :=
  draws_from unbound commands.
End GPU.

(** [ObjectGeometry] of types.ts: three buffer handles and a count. *)
Record ObjectGeometry : Type := {
  vertexBuffer : nat;
  colorBuffer : nat;
  indexBuffer : nat;
  indexCount : nat;
}.

(** ** Counting loops

    [for (let i = 0; i <= bound; i++)] and [for (let i = 0; i < bound; i++)]
    for a [bound] that is the value of [Math.max(lo, Math.floor(x))].  The
    counter is an exact integer.  With a NaN bound the test fails at once;
    with an infinite one the loop does not end, and neither does the
    function around it: [None]. *)

Section Loops.
Context {St : Type}.

(** [n] rounds of the body, the counter starting at [i]. *)
Fixpoint rounds (body : nat -> St -> option St) (i n : nat) (s : St)
    : option St :=
  match n with
  | O => Some s
  | S n =>
      match body i s with
      | Some s => rounds body (S i) n s
      | None => None
      end
  end.

(** The body is given the bound's value besides the counter. *)
Definition for_le (bound : jsint) (body : Z -> nat -> St -> option St)
    (s : St) : option St :=
  match bound with
  | Int b => rounds (body b) 0 (Z.to_nat (b + 1)) s
  | IntNaN | IntNegInf => Some s
  | IntPosInf => None
  end.

Definition for_lt (bound : jsint) (body : Z -> nat -> St -> option St)
    (s : St) : option St :=
  match bound with
  | Int b => rounds (body b) 0 (Z.to_nat b) s
  | IntNaN | IntNegInf => Some s
  | IntPosInf => None
  end.
End Loops.

(** ** geometry/BoxGeometry.ts *)

Module BoxGeometry.
Section Box.
Context {N : Type} {num : Number N}.
Local Open Scope num_scope.

(** The [vertices] array of [create]. *)
Definition create_vertices (width height depth : N) (position : Vec3.t N)
    : list N :=
  let x0 := Vec3.x position - width / lit 2 in
  let x1 := Vec3.x position + width / lit 2 in
  let y0 := Vec3.y position - height / lit 2 in
  let y1 := Vec3.y position + height / lit 2 in
  let z0 := Vec3.z position - depth / lit 2 in
  let z1 := Vec3.z position + depth / lit 2 in
  Float32Array_from [
    (* Front face *)
    x0; y0; z1;  x1; y0; z1;  x1; y1; z1;  x0; y1; z1;
    (* Back face *)
    x0; y0; z0;  x1; y0; z0;  x1; y1; z0;  x0; y1; z0;
    (* Top face *)
    x0; y1; z0;  x1; y1; z0;  x1; y1; z1;  x0; y1; z1;
    (* Bottom face *)
    x0; y0; z0;  x1; y0; z0;  x1; y0; z1;  x0; y0; z1;
    (* Right face *)
    x1; y0; z0;  x1; y1; z0;  x1; y1; z1;  x1; y0; z1;
    (* Left face *)
    x0; y0; z0;  x0; y1; z0;  x0; y1; z1;  x0; y0; z1
  ].

(** The [colors] array of [create]. *)
Definition create_colors (color : Vec4.t N) : list N :=
  let x := Vec4.x color in
  let y := Vec4.y color in
  let z := Vec4.z color in
  let w := Vec4.w color in
  Float32Array_from [
    (* Front face *)
    x; y; z; w;  x; y; z; w;  x; y; z; w;  x; y; z; w;
    (* Back face *)
    y; x; z; w;  y; x; z; w;  y; x; z; w;  y; x; z; w;
    (* Top face *)
    z; x; y; w;  z; x; y; w;  z; x; y; w;  z; x; y; w;
    (* Bottom face *)
    x; y; lit 0; w;  x; y; lit 0; w;  x; y; lit 0; w;  x; y; lit 0; w;
    (* Right face *)
    lit 0; y; z; w;  lit 0; y; z; w;  lit 0; y; z; w;  lit 0; y; z; w;
    (* Left face *)
    x; lit 0; z; w;  x; lit 0; z; w;  x; lit 0; z; w;  x; lit 0; z; w
  ].

(** The [indices] array of [create]. *)
Definition create_indices : list Z :=
  Uint16Array_from [
    0; 1; 2; 0; 2; 3;
    4; 6; 5; 4; 7; 6;
    8; 9; 10; 8; 10; 11;
    12; 14; 13; 12; 15; 14;
    16; 18; 17; 16; 19; 18;
    20; 21; 22; 20; 22; 23
  ]%Z.

(** The tail shared by the geometry builders: one buffer per array,
    each sized to its array and written once. *)
Definition upload (vertices colors : list N) (indices : list Z)
    (device : GPU.Device N) : ObjectGeometry * GPU.Device N :=
  let '(vertexBuffer, device) :=
    GPU.createBuffer (GPU.byteLength (GPU.Float32Data vertices))
      GPU.VERTEX device in
  let device :=
    GPU.writeBufferAll vertexBuffer 0 (GPU.Float32Data vertices) device in
  let '(colorBuffer, device) :=
    GPU.createBuffer (GPU.byteLength (GPU.Float32Data colors))
      GPU.VERTEX device in
  let device :=
    GPU.writeBufferAll colorBuffer 0 (GPU.Float32Data colors) device in
  let '(indexBuffer, device) :=
    GPU.createBuffer (GPU.byteLength (N:=N) (GPU.Uint16Data indices))
      GPU.INDEX device in
  let device :=
    GPU.writeBufferAll indexBuffer 0 (GPU.Uint16Data indices) device in
  ({| vertexBuffer := vertexBuffer;
      colorBuffer := colorBuffer;
      indexBuffer := indexBuffer;
      indexCount := length indices |}, device).

Definition create (width height depth : N) (color : Vec4.t N)
    (position : Vec3.t N) (device : GPU.Device N)
    : ObjectGeometry * GPU.Device N :=
  let vertices := create_vertices width height depth position in
  let colors := create_colors color in
  let indices := create_indices in
  upload vertices colors indices device.

Definition createQuad (width height : N) (color : Vec4.t N)
    (position : Vec3.t N) (device : GPU.Device N)
    : ObjectGeometry * GPU.Device N :=
  let halfWidth := width / lit 2 in
  let halfHeight := height / lit 2 in
  let x0 := Vec3.x position - halfWidth in
  let x1 := Vec3.x position + halfWidth in
  let y0 := Vec3.y position - halfHeight in
  let y1 := Vec3.y position + halfHeight in
  let z := Vec3.z position in
  let vertices :=
    Float32Array_from [x0; y0; z;  x1; y0; z;  x1; y1; z;  x0; y1; z] in
  let colors :=
    Float32Array_from [
      Vec4.x color; Vec4.y color; Vec4.z color; Vec4.w color;
      Vec4.x color; Vec4.y color; Vec4.z color; Vec4.w color;
      Vec4.x color; Vec4.y color; Vec4.z color; Vec4.w color;
      Vec4.x color; Vec4.y color; Vec4.z color; Vec4.w color
    ] in
  let indices := Uint16Array_from [0; 1; 2; 0; 2; 3]%Z in
  upload vertices colors indices device.
End Box.
End BoxGeometry.

(** ** geometry/SphereGeometry.ts *)

Module SphereGeometry.
Section Sphere.
Context {N : Type} {num : Number N}.
Local Open Scope num_scope.

(** The loop "Generate vertices": the [vertices] and the [grid] of
    their indices, row by row. *)
Definition generate_vertices (radius : N) (position : Vec3.t N)
    (widthSegments heightSegments : jsint)
    : option (list N * list (list Z)) :=
  for_le heightSegments (fun heightSegments iy '(vertices, grid) =>
    let v := lit (Z.of_nat iy) / lit heightSegments in
    match
      for_le widthSegments (fun widthSegments ix '(vertices, row) =>
        let u := lit (Z.of_nat ix) / lit widthSegments in
        let phi := u * Math_PI * lit 2 in
        let theta := v * Math_PI in
        let sinTheta := Math_sin theta in
        let cosTheta := Math_cos theta in
        let sinPhi := Math_sin phi in
        let cosPhi := Math_cos phi in
        let nx := cosPhi * sinTheta in
        let ny := cosTheta in
        let nz := sinPhi * sinTheta in
        let vertices :=
          vertices ++ [Vec3.x position + radius * nx;
                       Vec3.y position + radius * ny;
                       Vec3.z position + radius * nz] in
        let row := row ++ [(Z.of_nat (length vertices) / 3 - 1)%Z] in
        Some (vertices, row)) (vertices, [])
    with
    | Some (vertices, row) => Some (vertices, grid ++ [row])
    | None => None
    end) ([], []).

(** [grid[iy][ix]]; reading past a row or past the grid throws. *)
Definition grid_get (grid : list (list Z)) (iy ix : nat) : option Z :=
  match grid !! iy with
  | Some row => row !! ix
  | None => None
  end.

(** The loop "Generate indices". *)
Definition generate_indices (grid : list (list Z))
    (widthSegments heightSegments : jsint) : option (list Z) :=
  for_lt heightSegments (fun heightSegments iy indices =>
    for_lt widthSegments (fun widthSegments ix indices =>
      match grid_get grid iy (ix + 1), grid_get grid iy ix,
            grid_get grid (iy + 1) ix, grid_get grid (iy + 1) (ix + 1) with
      | Some a, Some b, Some c, Some d =>
          let indices :=
            if decide (iy ≠ 0) then indices ++ [a; b; d] else indices in
          let indices :=
            if decide (Z.of_nat iy ≠ heightSegments - 1)%Z
            then indices ++ [b; c; d] else indices in
          Some indices
      | _, _, _, _ => None
      end) indices) [].

(** [normalizedY] of vertex [i]. *)
Definition normalizedY (vertices : list N) (radius : N)
    (position : Vec3.t N) (i : nat) : N :=
  (nth (i * 3 + 1) vertices (lit 0) - (Vec3.y position - radius))
  / (lit 2 * radius).

(** One round of the loop that fills [colors]: the colour of vertex [i]. *)
Definition color_vertex (vertices : list N) (radius : N)
    (color : Vec4.t N) (position : Vec3.t N) (colors : list N) (i : nat)
    : list N :=
  let normalizedY := normalizedY vertices radius position i in
  let colors :=
    if normalizedY <? dec 2 10 then
      let colors := f32_store colors (i * 4 + 0) (lit 0) in
      let colors := f32_store colors (i * 4 + 1) (lit 0) in
      f32_store colors (i * 4 + 2) (dec 8 10 + normalizedY)
    else if normalizedY <? dec 5 10 then
      let colors := f32_store colors (i * 4 + 0) (lit 0) in
      let colors := f32_store colors (i * 4 + 1) (dec 5 10 + normalizedY) in
      f32_store colors (i * 4 + 2) (dec 5 10 + normalizedY / lit 2)
    else if normalizedY <? dec 8 10 then
      let colors :=
        f32_store colors (i * 4 + 0) ((normalizedY - dec 5 10) * lit 2) in
      let colors := f32_store colors (i * 4 + 1) (dec 8 10) in
      f32_store colors (i * 4 + 2) ((dec 8 10 - normalizedY) * lit 2)
    else
      let colors := f32_store colors (i * 4 + 0) (lit 1) in
      let colors :=
        f32_store colors (i * 4 + 1) ((lit 1 - normalizedY) * lit 5) in
      f32_store colors (i * 4 + 2) (lit 0) in
  f32_store colors (i * 4 + 3) (Vec4.w color).

(** The loop that fills [colors]; [vertices.length / 3] is the number of
    vertices. *)
Definition generate_colors (vertices : list N) (radius : N)
    (color : Vec4.t N) (position : Vec3.t N) : list N :=
  let colors := Float32Array_new ((length vertices / 3) * 4) in
  foldl (color_vertex vertices radius color position) colors
    (seq 0 (length vertices / 3)).

(** The three arrays handed to the device: [verticesArray], [colors]
    and [indicesArray]. *)
Definition create_arrays (radius widthSegments heightSegments : N)
    (color : Vec4.t N) (position : Vec3.t N)
    : option (list N * list N * list Z) :=
  let widthSegments := Math_max 3 (Math_floor widthSegments) in
  let heightSegments := Math_max 2 (Math_floor heightSegments) in
  match generate_vertices radius position widthSegments heightSegments with
  | Some (vertices, grid) =>
      match generate_indices grid widthSegments heightSegments with
      | Some indices =>
          let colors := generate_colors vertices radius color position in
          let verticesArray := Float32Array_from vertices in
          let indicesArray := Uint16Array_from indices in
          Some (verticesArray, colors, indicesArray)
      | None => None
      end
  | None => None
  end.

Definition create (radius widthSegments heightSegments : N)
    (color : Vec4.t N) (position : Vec3.t N) (device : GPU.Device N)
    : option (ObjectGeometry * GPU.Device N) :=
  match create_arrays radius widthSegments heightSegments color position with
  | Some (verticesArray, colors, indicesArray) =>
      Some (BoxGeometry.upload verticesArray colors indicesArray device)
  | None => None
  end.
End Sphere.
End SphereGeometry.

(** ** core/Camera.ts

    The controller's [device] and [canvas] are references to the
    renderer's; here they are arguments of the methods that use them. *)

Record Canvas (N : Type) : Type := {
  width : N;
  height : N;
}.
Arguments Build_Canvas {N} _ _.
Arguments width {N} _.
Arguments height {N} _.

(** [Camera] of types.ts; a [Matrix4x4] is its [data]. *)
Record Camera (N : Type) : Type := {
  position : Vec3.t N;
  viewMatrix : list N;
  projectionMatrix : list N;
}.
Arguments Build_Camera {N} _ _ _.
Arguments position {N} _.
Arguments viewMatrix {N} _.
Arguments projectionMatrix {N} _.

Module CameraController.
Section Controller.
Context {N : Type} {num : Number N}.
Local Open Scope num_scope.

Definition updateViewMatrix (camera : Camera N) : Camera N :=
  {| position := position camera;
     viewMatrix := createViewMatrix (position camera) origin up_default;
     projectionMatrix := projectionMatrix camera |}.

Definition updateProjectionMatrix (canvas : Canvas N) (camera : Camera N)
    : Camera N :=
  let aspect := width canvas / height canvas in
  let fov := (lit 45 * Math_PI) / lit 180 in
  let near := dec 1 10 in
  let far := lit 100 in
  {| position := position camera;
     viewMatrix := viewMatrix camera;
     projectionMatrix := createProjectionMatrix fov aspect near far |}.

(** The constructor. *)
Definition new (position : Vec3.t N) (canvas : Canvas N) : Camera N :=
  let camera :=
    {| position := position;
       viewMatrix := Float32Array_new 16;
       projectionMatrix := Float32Array_new 16 |} in
  let camera := updateViewMatrix camera in
  updateProjectionMatrix canvas camera.

Definition updateUniformBuffer (buffer : nat) (camera : Camera N)
    (device : GPU.Device N) : GPU.Device N :=
  let device :=
    GPU.writeBuffer buffer 0 (GPU.Float32Data (viewMatrix camera)) 0 16
      device in
  GPU.writeBuffer buffer 64 (GPU.Float32Data (projectionMatrix camera)) 0 16
    device.

Definition createUniformBuffer (camera : Camera N) (device : GPU.Device N)
    : nat * GPU.Device N :=
  let '(uniformBuffer, device) := GPU.createBuffer 128 GPU.UNIFORM device in
  let device := updateUniformBuffer uniformBuffer camera device in
  (uniformBuffer, device).

Definition handleResize (canvas : Canvas N) (camera : Camera N)
    : Camera N :=
  updateProjectionMatrix canvas camera.

Definition orbitCamera (time : N) (camera : Camera N) : Camera N :=
  let radius := lit 5 in
  let speed := dec 2 10 in
  let camera :=
    {| position :=
         Vec3.mk (Math_sin (time * speed) * radius)
                 (dec 15 10)
                 (Math_cos (time * speed) * radius);
       viewMatrix := viewMatrix camera;
       projectionMatrix := projectionMatrix camera |} in
  updateViewMatrix camera.
End Controller.
End CameraController.

(** ** core/StencilManager.ts *)

Module StencilManager.
Definition renderStencilMask (renderPass : list GPU.RenderCommand)
    (geometry : ObjectGeometry) (stencilValue : nat)
    (bindGroup transformBindGroup : GPU.BindGroup)
    : list GPU.RenderCommand :=
  renderPass ++ [
    GPU.setPipeline GPU.stencilPipeline;
    GPU.setStencilReference stencilValue;
    GPU.setBindGroup 0 bindGroup;
    GPU.setBindGroup 1 transformBindGroup;
    GPU.setVertexBuffer 0 (vertexBuffer geometry);
    GPU.setIndexBuffer (indexBuffer geometry);
    GPU.drawIndexed (indexCount geometry)
  ].
End StencilManager.

(** ** core/Renderer.ts

    The renderer is set up on a device that was acquired; the two failures
    of [initialize] (no WebGPU, no adapter) happen before any of the state
    below exists. *)

Record Renderer (N : Type) : Type := {
  device : GPU.Device N;
  canvas : Canvas N;
  (** the size the depth-stencil texture was created with *)
  depthStencilTexture : N * N;
  cameraController : Camera N;
  cameraBindGroup : GPU.BindGroup;
}.
Arguments Build_Renderer {N} _ _ _ _ _.
Arguments device {N} _.
Arguments canvas {N} _.
Arguments depthStencilTexture {N} _.
Arguments cameraController {N} _.
Arguments cameraBindGroup {N} _.

Module Renderer.
Section Renderer.
Context {N : Type} {num : Number N}.
Local Open Scope num_scope.

Definition createDepthStencilTexture (canvas : Canvas N) : N * N :=
  (width canvas, height canvas).

Definition initialize (canvas : Canvas N) : Renderer N :=
  let device := GPU.requestDevice in
  let depthStencilTexture := createDepthStencilTexture canvas in
  let cameraController :=
    CameraController.new (Vec3.mk (lit 0) (lit 0) (lit 5)) canvas in
  let '(cameraUniformBuffer, device) :=
    CameraController.createUniformBuffer cameraController device in
  let cameraBindGroup :=
    {| GPU.layout := GPU.cameraBindGroupLayout;
       GPU.buffer := cameraUniformBuffer |} in
  {| device := device;
     canvas := canvas;
     depthStencilTexture := depthStencilTexture;
     cameraController := cameraController;
     cameraBindGroup := cameraBindGroup |}.

Definition renderObject (renderer : Renderer N)
    (renderPass : list GPU.RenderCommand) (geometry : ObjectGeometry)
    (stencilValue : nat) (transformBindGroup : GPU.BindGroup)
    : list GPU.RenderCommand :=
  renderPass ++ [
    GPU.setPipeline GPU.objectPipeline;
    GPU.setStencilReference stencilValue;
    GPU.setBindGroup 0 (cameraBindGroup renderer);
    GPU.setBindGroup 1 transformBindGroup;
    GPU.setVertexBuffer 0 (vertexBuffer geometry);
    GPU.setVertexBuffer 1 (colorBuffer geometry);
    GPU.setIndexBuffer (indexBuffer geometry);
    GPU.drawIndexed (indexCount geometry)
  ].

Definition renderTransparentObject (renderer : Renderer N)
    (renderPass : list GPU.RenderCommand) (geometry : ObjectGeometry)
    (transformBindGroup : GPU.BindGroup) : list GPU.RenderCommand :=
  renderPass ++ [
    GPU.setPipeline GPU.transparentPipeline;
    GPU.setBindGroup 0 (cameraBindGroup renderer);
    GPU.setBindGroup 1 transformBindGroup;
    GPU.setVertexBuffer 0 (vertexBuffer geometry);
    GPU.setVertexBuffer 1 (colorBuffer geometry);
    GPU.setIndexBuffer (indexBuffer geometry);
    GPU.drawIndexed (indexCount geometry)
  ].

Definition createTransformBindGroup (buffer : nat) : GPU.BindGroup :=
  {| GPU.layout := GPU.transformBindGroupLayout; GPU.buffer := buffer |}.

(** [innerWidth], [innerHeight]: the window's size at the event. *)
Definition handleResize (innerWidth innerHeight : N)
    (renderer : Renderer N) : Renderer N :=
  let canvas := {| width := innerWidth; height := innerHeight |} in
  let depthStencilTexture := createDepthStencilTexture canvas in
  {| device := device renderer;
     canvas := canvas;
     depthStencilTexture := depthStencilTexture;
     cameraController :=
       CameraController.handleResize canvas (cameraController renderer);
     cameraBindGroup := cameraBindGroup renderer |}.

(** A render pass is the list of the commands recorded so far. *)
Definition beginRenderPass : list GPU.RenderCommand := [].

Definition endRenderPass (renderPass : list GPU.RenderCommand)
    (renderer : Renderer N) : Renderer N :=
  {| device := GPU.submit renderPass (device renderer);
     canvas := canvas renderer;
     depthStencilTexture := depthStencilTexture renderer;
     cameraController := cameraController renderer;
     cameraBindGroup := cameraBindGroup renderer |}.
End Renderer.
End Renderer.

(** ** geometry/TransparentCube.ts *)

Record CubeFace (N : Type) : Type := {
  geometry : ObjectGeometry;
  stencilValue : nat;
  transform : list N;
}.
Arguments Build_CubeFace {N} _ _ _.
Arguments geometry {N} _.
Arguments stencilValue {N} _.
Arguments transform {N} _.

Record TransparentCube (N : Type) : Type := {
  size : N;
  outerCube : ObjectGeometry;
  faces : list (CubeFace N);
  rotationMatrix : list N;
  rotationTransformBuffer : nat;
}.
Arguments Build_TransparentCube {N} _ _ _ _ _.
Arguments size {N} _.
Arguments outerCube {N} _.
Arguments faces {N} _.
Arguments rotationMatrix {N} _.
Arguments rotationTransformBuffer {N} _.

Module TransparentCube.
Section Cube.
Context {N : Type} {num : Number N}.
Local Open Scope num_scope.

Definition faceFacePositions (halfSize : N) : list (Vec3.t N) := [
  Vec3.mk (lit 0) (lit 0) halfSize;
  Vec3.mk (lit 0) (lit 0) (- halfSize);
  Vec3.mk (lit 0) halfSize (lit 0);
  Vec3.mk (lit 0) (- halfSize) (lit 0);
  Vec3.mk halfSize (lit 0) (lit 0);
  Vec3.mk (- halfSize) (lit 0) (lit 0)
].

Definition faceRotations : list (Vec3.t N) := [
  Vec3.mk (lit 0) (lit 0) (lit 0);
  Vec3.mk (lit 0) Math_PI (lit 0);
  Vec3.mk (Math_PI / lit 2) (lit 0) (lit 0);
  Vec3.mk (- Math_PI / lit 2) (lit 0) (lit 0);
  Vec3.mk (lit 0) (Math_PI / lit 2) (lit 0);
  Vec3.mk (lit 0) (- Math_PI / lit 2) (lit 0)
].

(** The loop [for (let i = 0; i < 6; i++)] of [createFaces], pushing
    onto [faces]. *)
Definition createFaces (size : N) (faces : list (CubeFace N))
    (device : GPU.Device N) : list (CubeFace N) * GPU.Device N :=
  let halfSize := size / lit 2 in
  let faceSize := size * dec 95 100 in
  foldl (fun '(faces, device) i =>
    let stencilValue := (i + 1)%nat in
    let '(faceGeometry, device) :=
      BoxGeometry.createQuad faceSize faceSize
        (Vec4.mk (lit 1) (lit 1) (lit 1) (lit 1))
        (nth i (faceFacePositions halfSize) origin) device in
    let rotation := nth i faceRotations origin in
    (faces ++ [{| geometry := faceGeometry;
                  stencilValue := stencilValue;
                  transform :=
                    createRotationMatrix (Vec3.x rotation)
                      (Vec3.y rotation) (Vec3.z rotation) |}],
     device))
  (faces, device) (seq 0 6).

Definition updateRotation (time : N) (cube : TransparentCube N)
    (device : GPU.Device N) : TransparentCube N * GPU.Device N :=
  let rotationSpeed := dec 3 10 in
  let angle := time * rotationSpeed in
  let rotationMatrix :=
    createRotationMatrix (angle * dec 5 10) angle (angle * dec 25 100) in
  let device :=
    GPU.writeBuffer (rotationTransformBuffer cube) 0
      (GPU.Float32Data rotationMatrix) 0 16 device in
  ({| size := size cube;
      outerCube := outerCube cube;
      faces := faces cube;
      rotationMatrix := rotationMatrix;
      rotationTransformBuffer := rotationTransformBuffer cube |}, device).

(** The constructor. *)
Definition new (size : N) (device : GPU.Device N)
    : TransparentCube N * GPU.Device N :=
  let '(outerCube, device) :=
    BoxGeometry.create size size size
      (Vec4.mk (dec 9 10) (dec 9 10) (dec 9 10) (dec 5 100))
      (Vec3.mk (lit 0) (lit 0) (lit 0)) device in
  let '(faces, device) := createFaces size [] device in
  let '(rotationTransformBuffer, device) :=
    GPU.createBuffer 64 GPU.UNIFORM device in
  updateRotation (lit 0)
    {| size := size;
       outerCube := outerCube;
       faces := faces;
       rotationMatrix := Float32Array_new 16;
       rotationTransformBuffer := rotationTransformBuffer |} device.
End Cube.
End TransparentCube.

(** ** main.ts *)

Record VelesPortals (N : Type) : Type := {
  renderer : Renderer N;
  transparentCube : TransparentCube N;
  innerCube : ObjectGeometry;
  innerSphere : ObjectGeometry;
  identityTransformBuffer : nat;
  identityBindGroup : GPU.BindGroup;
}.
Arguments Build_VelesPortals {N} _ _ _ _ _ _.
Arguments renderer {N} _.
Arguments transparentCube {N} _.
Arguments innerCube {N} _.
Arguments innerSphere {N} _.
Arguments identityTransformBuffer {N} _.
Arguments identityBindGroup {N} _.

Module VelesPortals.
Section App.
Context {N : Type} {num : Number N}.
Local Open Scope num_scope.

(** [renderer.device] with its buffers replaced by [device]'s. *)
Definition with_device (device : GPU.Device N) (renderer : Renderer N)
    : Renderer N :=
  {| device := device;
     canvas := canvas renderer;
     depthStencilTexture := depthStencilTexture renderer;
     cameraController := cameraController renderer;
     cameraBindGroup := cameraBindGroup renderer |}.

(** [initialize]: the renderer's [initialize], [createGeometries] and
    [setupTransforms].  [None] when a constructor does not return. *)
Definition initialize (canvas : Canvas N) : option (VelesPortals N) :=
  let renderer := Renderer.initialize canvas in
  (* createGeometries *)
  let device := device renderer in
  let '(transparentCube, device) := TransparentCube.new (lit 2) device in
  let '(innerCube, device) :=
    BoxGeometry.create (dec 8 10) (dec 8 10) (dec 8 10)
      (Vec4.mk (lit 1) (dec 2 10) (dec 2 10) (lit 1))
      (Vec3.mk (lit 0) (lit 0) (lit 0)) device in
  match
    SphereGeometry.create (dec 6 10) (lit 24) (lit 18)
      (Vec4.mk (dec 2 10) (dec 2 10) (lit 1) (lit 1))
      (Vec3.mk (lit 0) (lit 0) (lit 0)) device
  with
  | None => None
  | Some (innerSphere, device) =>
      (* setupTransforms *)
      let '(identityTransformBuffer, device) :=
        GPU.createBuffer 64 GPU.UNIFORM device in
      let identityMatrix := createIdentityMatrix in
      let device :=
        GPU.writeBuffer identityTransformBuffer 0
          (GPU.Float32Data identityMatrix) 0 16 device in
      let identityBindGroup :=
        Renderer.createTransformBindGroup identityTransformBuffer in
      Some {| renderer := with_device device renderer;
              transparentCube := transparentCube;
              innerCube := innerCube;
              innerSphere := innerSphere;
              identityTransformBuffer := identityTransformBuffer;
              identityBindGroup := identityBindGroup |}
  end.

(** The commands [render] records between [beginRenderPass] and
    [endRenderPass], given the cube's bind group of this frame. *)
Definition render_pass (app : VelesPortals N)
    (cubeTransformBindGroup : GPU.BindGroup) : list GPU.RenderCommand :=
  let renderPass := Renderer.beginRenderPass in
  let faces := faces (transparentCube app) in
  (* 1. stencil masks: faces.forEach *)
  let renderPass :=
    foldl (fun renderPass face =>
      StencilManager.renderStencilMask renderPass (geometry face)
        (stencilValue face) (cameraBindGroup (renderer app))
        cubeTransformBindGroup)
    renderPass faces in
  (* 2. inner objects: for (let i = 0; i < faces.length; i++) *)
  let renderPass :=
    foldl (fun renderPass i =>
      let stencilValue := (i + 1)%nat in
      if decide (i mod 2 = 0)%nat
      then Renderer.renderObject (renderer app) renderPass
             (innerCube app) stencilValue (identityBindGroup app)
      else Renderer.renderObject (renderer app) renderPass
             (innerSphere app) stencilValue (identityBindGroup app))
    renderPass (seq 0 (length faces)) in
  (* 3. the outer cube *)
  Renderer.renderTransparentObject (renderer app) renderPass
    (outerCube (transparentCube app)) cubeTransformBindGroup.

Definition render (time : N) (app : VelesPortals N) : VelesPortals N :=
  let '(transparentCube, device) :=
    TransparentCube.updateRotation time (transparentCube app)
      (device (renderer app)) in
  let app :=
    {| renderer := with_device device (renderer app);
       transparentCube := transparentCube;
       innerCube := innerCube app;
       innerSphere := innerSphere app;
       identityTransformBuffer := identityTransformBuffer app;
       identityBindGroup := identityBindGroup app |} in
  let cubeTransformBindGroup :=
    Renderer.createTransformBindGroup
      (rotationTransformBuffer transparentCube) in
  let renderPass := render_pass app cubeTransformBindGroup in
  {| renderer := Renderer.endRenderPass renderPass (renderer app);
     transparentCube := transparentCube;
     innerCube := innerCube app;
     innerSphere := innerSphere app;
     identityTransformBuffer := identityTransformBuffer app;
     identityBindGroup := identityBindGroup app |}.

(** [animate] of [Renderer.startAnimationLoop], with [render] as its
    [renderFunction]: one tick of the loop, at [time] milliseconds. *)
Definition animate (time : N) (app : VelesPortals N) : VelesPortals N :=
  let timeInSeconds := time / lit 1000 in
  let renderer := renderer app in
  let app :=
    {| renderer :=
         {| device := device renderer;
            canvas := canvas renderer;
            depthStencilTexture := depthStencilTexture renderer;
            cameraController :=
              CameraController.orbitCamera timeInSeconds
                (cameraController renderer);
            cameraBindGroup := cameraBindGroup renderer |};
       transparentCube := transparentCube app;
       innerCube := innerCube app;
       innerSphere := innerSphere app;
       identityTransformBuffer := identityTransformBuffer app;
       identityBindGroup := identityBindGroup app |} in
  render timeInSeconds app.

Definition handleResize (innerWidth innerHeight : N)
    (app : VelesPortals N) : VelesPortals N :=
  {| renderer := Renderer.handleResize innerWidth innerHeight (renderer app);
     transparentCube := transparentCube app;
     innerCube := innerCube app;
     innerSphere := innerSphere app;
     identityTransformBuffer := identityTransformBuffer app;
     identityBindGroup := identityBindGroup app |}.

(** What the host delivers after [initialize]: animation frames and
    resize events. *)
Inductive Event : Type :=
  | Frame (time : N)
  | Resize (innerWidth innerHeight : N).

Definition handle (app : VelesPortals N) (event : Event)
    : VelesPortals N :=
  match event with
  | Frame time => animate time app
  | Resize innerWidth innerHeight => handleResize innerWidth innerHeight app
  end.

Definition run (events : list Event) (app : VelesPortals N)
    : VelesPortals N :=
  foldl handle app events.

(** The pass recorded by the frame at [time] milliseconds: the last
    one submitted. *)
Definition frame_pass (time : N) (app : VelesPortals N)
    : list GPU.RenderCommand :=
  default [] (last (GPU.submitted (device (renderer (animate time app))))).
End App.
End VelesPortals.

(** ** Vocabulary of the statements *)

(** The colour of vertex [i] in a colour array: four floats per vertex. *)
Definition vertex_color {N : Type} {num : Number N} (colors : list N) (i : nat) : Vec4.t N :=
  Vec4.mk (f32_get colors (i * 4 + 0)) (f32_get colors (i * 4 + 1))
          (f32_get colors (i * 4 + 2)) (f32_get colors (i * 4 + 3)).

Section SphereClosedForm.
Context {N : Type} {num : Number N}.
Local Open Scope num_scope.

(** The three coordinates pushed for the grid point [(iy, ix)]. *)
Definition grid_vertex (radius : N) (position : Vec3.t N) (W H : Z)
    (iy ix : nat) : list N :=
  let v := lit (Z.of_nat iy) / lit H in
  let u := lit (Z.of_nat ix) / lit W in
  let phi := u * Math_PI * lit 2 in
  let theta := v * Math_PI in
  [Vec3.x position + radius * (Math_cos phi * Math_sin theta);
   Vec3.y position + radius * Math_cos theta;
   Vec3.z position + radius * (Math_sin phi * Math_sin theta)].

(** The index of the vertex of the grid point [(iy, ix)], rows being
    [columns] long. *)
Definition grid_index (columns iy ix : nat) : Z := Z.of_nat (iy * columns + ix).

(** The indices pushed for the quad at [(iy, ix)]. *)
Definition quad_indices (columns : nat) (H : Z) (iy ix : nat) : list Z :=
  let a := grid_index columns iy (ix + 1) in
  let b := grid_index columns iy ix in
  let c := grid_index columns (iy + 1) ix in
  let d := grid_index columns (iy + 1) (ix + 1) in
  (if decide (iy ≠ 0%nat) then [a; b; d] else [])
  ++ (if decide (Z.of_nat iy ≠ H - 1)%Z then [b; c; d] else []).

(** The vertices and the indices that [create] computes, in closed form. *)
Definition sphere_vertices (radius : N) (position : Vec3.t N) (W H : Z)
    : list N :=
  flat_map (fun iy =>
    flat_map (grid_vertex radius position W H iy) (seq 0 (Z.to_nat (W + 1))))
    (seq 0 (Z.to_nat (H + 1))).

Definition sphere_indices (W H : Z) : list Z :=
  flat_map (fun iy =>
    flat_map (quad_indices (Z.to_nat (W + 1)) H iy) (seq 0 (Z.to_nat W)))
    (seq 0 (Z.to_nat H)).
End SphereClosedForm.



(** ** The frame algorithm, as specified

    Three passes in a fixed order: a stencil mask per face, a stencil-gated
    inner solid per face index, then the outer shell. *)
Module Frame.
Section Frame.
Context {N : Type}.

(** The bind group of the cube's shared rotation. *)
Definition rotation (app : VelesPortals N) : GPU.BindGroup :=
  {| GPU.layout := GPU.transformBindGroupLayout;
     GPU.buffer := rotationTransformBuffer (transparentCube app) |}.

(** Pass 1: the mask of [face], with the face's stencil reference and the
    rotation transform. *)
Definition mask (app : VelesPortals N) (face : CubeFace N) : GPU.Draw :=
  {| GPU.pipeline := Some GPU.stencilPipeline;
     GPU.stencilReference := stencilValue face;
     GPU.bindGroup0 := Some (cameraBindGroup (renderer app));
     GPU.bindGroup1 := Some (rotation app);
     GPU.vertexBuffer0 := Some (vertexBuffer (geometry face));
     GPU.vertexBuffer1 := None;
     GPU.indexBuffer := Some (indexBuffer (geometry face));
     GPU.indexCount := indexCount (geometry face) |}.

(** The inner solid seen through the face of index [i]. *)
Definition solid (app : VelesPortals N) (i : nat) : ObjectGeometry :=
  if Nat.even i then innerCube app else innerSphere app.

(** Pass 2: the inner solid of face index [i], gated by the reference
    [i + 1], with the identity transform. *)
Definition object (app : VelesPortals N) (i : nat) : GPU.Draw :=
  {| GPU.pipeline := Some GPU.objectPipeline;
     GPU.stencilReference := i + 1;
     GPU.bindGroup0 := Some (cameraBindGroup (renderer app));
     GPU.bindGroup1 := Some (identityBindGroup app);
     GPU.vertexBuffer0 := Some (vertexBuffer (solid app i));
     GPU.vertexBuffer1 := Some (colorBuffer (solid app i));
     GPU.indexBuffer := Some (indexBuffer (solid app i));
     GPU.indexCount := indexCount (solid app i) |}.

(** Pass 3: the outer shell, with the rotation transform.  The pipeline
    ignores the stencil reference, which is still the one set last. *)
Definition shell (app : VelesPortals N) (reference : nat) : GPU.Draw :=
  {| GPU.pipeline := Some GPU.transparentPipeline;
     GPU.stencilReference := reference;
     GPU.bindGroup0 := Some (cameraBindGroup (renderer app));
     GPU.bindGroup1 := Some (rotation app);
     GPU.vertexBuffer0 := Some (vertexBuffer (outerCube (transparentCube app)));
     GPU.vertexBuffer1 := Some (colorBuffer (outerCube (transparentCube app)));
     GPU.indexBuffer := Some (indexBuffer (outerCube (transparentCube app)));
     GPU.indexCount := indexCount (outerCube (transparentCube app)) |}.

(** The draw calls of one frame, for a cube of [n] faces. *)
Definition draws (app : VelesPortals N) (n : nat) : list GPU.Draw :=
  (mask app <$> faces (transparentCube app))
  ++ (object app <$> seq 0 n)
  ++ [shell app n].
End Frame.
End Frame.

(** What a frame draws from: the parts of the application that [render]
    reads and no event changes. *)
Definition scene {N : Type} (app : VelesPortals N) :=
  (faces (transparentCube app), outerCube (transparentCube app),
   rotationTransformBuffer (transparentCube app),
   cameraBindGroup (renderer app),
   innerCube app, innerSphere app, identityBindGroup app).

(** [device'] has the buffers of [device], unchanged, and maybe more. *)
Definition extends {N : Type} (device device' : GPU.Device N) : Prop :=
  GPU.nextBuffer device <= GPU.nextBuffer device'
  /\ forall h, h < GPU.nextBuffer device ->
       GPU.buffers device' !! h = GPU.buffers device !! h.

(** The buffers behind the three bind groups of a frame: the camera's holds
    [camera], the identity transform's the identity matrix, the rotation
    transform's the cube's rotation matrix. *)
Definition wired {N : Type} {num : Number N} (camera : list N)
    (app : VelesPortals N) : Prop :=
  let buffers := GPU.buffers (device (renderer app)) in
  let c := GPU.buffer (cameraBindGroup (renderer app)) in
  let r := rotationTransformBuffer (transparentCube app) in
  let i := GPU.buffer (identityBindGroup app) in
  c ≠ r /\ i ≠ r
  /\ buffers !! c = Some (GPU.Float32Data camera)
  /\ buffers !! i = Some (GPU.Float32Data createIdentityMatrix)
  /\ buffers !! r = Some (GPU.Float32Data (rotationMatrix (transparentCube app)))
  /\ length (rotationMatrix (transparentCube app)) = 16.

(** The camera's matrices as [Renderer.initialize] uploads them. *)
Definition initial_camera {N : Type} {num : Number N} (canvas : Canvas N)
    : list N :=
  let camera :=
    CameraController.new (Vec3.mk (lit 0) (lit 0) (lit 5)) canvas in
  viewMatrix camera ++ projectionMatrix camera.

(** ** utils/math.ts: translation, scaling and model matrices *)

Section Transforms.
Context {N : Type} {num : Number N}.
Local Open Scope num_scope.




End Transforms.

(** ** shaders: the vertex stage

    [mat4x4f * vec4f] of WGSL.  A [mat4x4f] read from a uniform buffer
    takes its sixteen floats column after column: the product is the sum of
    the columns weighted by the components of the vector. *)
Module Shader.
Section Shader.
Context {N : Type} {num : Number N}.
Local Open Scope num_scope.


Definition mul (m : list N) (v : Vec4.t N) : Vec4.t N :=
  let component r :=
    f32_get m (0 + r) * Vec4.x v + f32_get m (4 + r) * Vec4.y v
    + f32_get m (8 + r) * Vec4.z v + f32_get m (12 + r) * Vec4.w v in
  Vec4.mk (component 0%nat) (component 1%nat) (component 2%nat)
    (component 3%nat).
End Shader.
End Shader.

(** ** Vocabulary of the further statements *)

(** The position of vertex [i] in a position array: three floats per
    vertex. *)
Definition vertex_position {N : Type} {num : Number N} (vertices : list N)
    (i : nat) : Vec3.t N :=
  Vec3.mk (f32_get vertices (i * 3 + 0)) (f32_get vertices (i * 3 + 1))
          (f32_get vertices (i * 3 + 2)).


Definition offset {N : Type} {num : Number N} (a b : Vec3.t N)
    : Vec3.t N :=
  Vec3.mk (Vec3.x a - Vec3.x b)%num (Vec3.y a - Vec3.y b)%num
    (Vec3.z a - Vec3.z b)%num.


(** The camera and the size of the depth-stencil texture follow the
    canvas. *)
Definition current {N : Type} {num : Number N} (renderer : Renderer N)
    : Prop :=
  depthStencilTexture renderer
    = (width (canvas renderer), height (canvas renderer))
  /\ projectionMatrix (cameraController renderer)
     = createProjectionMatrix (lit 45 * Math_PI / lit 180)%num
         (width (canvas renderer) / height (canvas renderer))%num
         (dec 1 10) (lit 100)
  /\ viewMatrix (cameraController renderer)
     = createViewMatrix (position (cameraController renderer)) origin
         up_default.

(** ** Geometry in bounds

    What an indexed draw of a geometry reads: [indexCount] indices of its
    index buffer, and for each index one vertex of three floats in its
    vertex buffer and one colour of four floats in its colour buffer. *)
Definition in_bounds {N : Type} (device : GPU.Device N)
    (geometry : ObjectGeometry) : Prop :=
  exists (vertices colors : list N) (indices : list Z),
    GPU.buffers device !! vertexBuffer geometry
      = Some (GPU.Float32Data vertices)
    /\ GPU.buffers device !! colorBuffer geometry
       = Some (GPU.Float32Data colors)
    /\ GPU.buffers device !! indexBuffer geometry
       = Some (GPU.Uint16Data indices)
    /\ indexCount geometry = length indices
    /\ Forall (fun i => 0 <= i < Z.of_nat (length vertices / 3))%Z indices
    /\ length colors / 4 = length vertices / 3.

(** A geometry in bounds none of whose buffers is the buffer [rotation],
    which the frames write. *)
Definition sound {N : Type} (device : GPU.Device N) (rotation : nat)
    (geometry : ObjectGeometry) : Prop :=
  Forall (fun h => h ≠ rotation /\ h < GPU.nextBuffer device)
    [vertexBuffer geometry; colorBuffer geometry; indexBuffer geometry]
  /\ in_bounds device geometry.

(** The geometries of the application. *)
Definition geometries {N : Type} (app : VelesPortals N)
    : list ObjectGeometry :=
  outerCube (transparentCube app) :: innerCube app :: innerSphere app
  :: (geometry <$> faces (transparentCube app)).

Definition safe {N : Type} (app : VelesPortals N) : Prop :=
  Forall (sound (device (renderer app))
            (rotationTransformBuffer (transparentCube app)))
    (geometries app).

(** ** The depth-stencil state of the three pipelines

    The [depthStencil] and [primitive.cullMode] entries of the
    descriptors passed to [createRenderPipeline] in Renderer.ts and
    StencilManager.ts, and the depth-stencil attachment of
    [beginRenderPass], with the stencil and depth tests WebGPU runs on a
    fragment under them. *)
Module DepthStencil.




Section Fragments.
Context {N : Type} {num : Number N}.











End Fragments.
End DepthStencil.

(** ** Resource bindings

    The uniform variables that the vertex shaders declare, each at a
    [@group] and a [@binding], and the bind group layouts that
    [createBindGroupLayouts] puts into the one pipeline layout all three
    pipelines are created with. *)
Module Bindings.
Record Resource : Type := {
  group : nat;
  binding : nat;
}.

(** [camera] and [transform] of shaders/object.ts, for both of its vertex
    shaders. *)
Definition objectVertexShader : list Resource :=
  [{| group := 0; binding := 0 |}; {| group := 1; binding := 0 |}].

Definition transparentVertexShader : list Resource :=
  [{| group := 0; binding := 0 |}; {| group := 1; binding := 0 |}].

(** [camera] and [transform] of shaders/stencil.ts. *)
Definition stencilVertexShader : list Resource :=
  [{| group := 0; binding := 0 |}; {| group := 0; binding := 1 |}].

Definition vertexShader (pipeline : GPU.Pipeline) : list Resource :=
  match pipeline with
  | GPU.stencilPipeline => stencilVertexShader
  | GPU.objectPipeline => objectVertexShader
  | GPU.transparentPipeline => transparentVertexShader
  end.

(** The [binding]s of the [entries] of a bind group layout. *)
Definition entries (layout : GPU.BindGroupLayout) : list nat :=
  match layout with
  | GPU.cameraBindGroupLayout => [0]
  | GPU.transformBindGroupLayout => [0]
  end.

(** [bindGroupLayouts] of the pipeline layout: the index is the group. *)
Definition pipelineLayout : list GPU.BindGroupLayout :=
  [GPU.cameraBindGroupLayout; GPU.transformBindGroupLayout].

(** The pipeline layout has an entry for the resource. *)
Definition provided (resource : Resource) : bool :=
  match pipelineLayout !! group resource with
  | Some layout => bool_decide (binding resource ∈ entries layout)
  | None => false
  end.
End Bindings.

(** * The two arithmetics *)

(** ** Binary64 arithmetic *)

Module IEEE.
(** The host's implementation of the trigonometric functions, used where
    ECMAScript leaves the result implementation-approximated. *)
Class Libm : Type := {
  sin_impl : float -> float;
  cos_impl : float -> float;
  tan_impl : float -> float;
}.

(** An integer of any magnitude as the nearest double. *)
Definition of_Z (z : Z) : float :=
  SF2Prim (binary_normalize prec emax z 0 false).

(** [Math.floor]: NaN and the infinities are returned as they are. *)
Definition floor (x : float) : jsint :=
  match Prim2SF x with
  | S754_zero _ => Int 0
  | S754_infinity false => IntPosInf
  | S754_infinity true => IntNegInf
  | S754_nan => IntNaN
  | S754_finite s m e => Int (Z.shiftl (cond_Zopp s (Z.pos m)) e)
  end.

(** [Math.fround], the rounding of a [Float32Array] store: binary32 has
    24 bits of precision and exponents below 128. *)
Definition fround (x : float) : float :=
  match Prim2SF x with
  | S754_finite s m e => SF2Prim (binary_round 24 128 s m e)
  | _ => x
  end.

(** [Math.sin] and [Math.tan] return NaN and the zeros as they are and
    NaN at an infinity; [Math.cos] is 1 at the zeros. *)
Definition sin {m : Libm} (x : float) : float :=
  if is_nan x || is_zero x then x
  else if is_infinity x then nan
  else sin_impl x.

Definition cos {m : Libm} (x : float) : float :=
  if is_nan x then x
  else if is_zero x then 1%float
  else if is_infinity x then nan
  else cos_impl x.

Definition tan {m : Libm} (x : float) : float :=
  if is_nan x || is_zero x then x
  else if is_infinity x then nan
  else tan_impl x.

#[global] Instance number {m : Libm} : Number float := {|
  num_of_Z := of_Z;
  num_add := PrimFloat.add;
  num_sub := PrimFloat.sub;
  num_mul := PrimFloat.mul;
  num_div := PrimFloat.div;
  num_neg := PrimFloat.opp;
  num_ltb := PrimFloat.ltb;
  num_eqb := PrimFloat.eqb;
  Math_sqrt := PrimFloat.sqrt;
  Math_sin := sin;
  Math_cos := cos;
  Math_tan := tan;
  Math_PI := 0x1.921fb54442d18p+1%float;
  Math_floor := floor;
  Math_fround := fround;
|}.

(** A libm to run the program with: the first terms of the series. *)
Definition series : Libm := {|
  sin_impl x := (x - x * x * x / 6 + x * x * x * x * x / 120)%float;
  cos_impl x := (1 - x * x / 2 + x * x * x * x / 24)%float;
  tan_impl x :=
    ((x - x * x * x / 6 + x * x * x * x * x / 120)
     / (1 - x * x / 2 + x * x * x * x / 24))%float;
|}.
End IEEE.

(** ** Exact arithmetic

    The real numbers: no rounding, the mathematical [sin], [cos], [tan] and
    square root.  Division by zero and the root of a negative number have
    the values the real library gives them (0); JavaScript has NaN or an
    infinity there. *)

Module Exact.
#[global] Instance number : Number R := {|
  num_of_Z := IZR;
  num_add := Rplus;
  num_sub := Rminus;
  num_mul := Rmult;
  num_div := Rdiv;
  num_neg := Ropp;
  num_ltb x y := if Rlt_dec x y then true else false;
  num_eqb x y := if Req_dec_T x y then true else false;
  Math_sqrt := sqrt;
  Math_sin := Rtrigo_def.sin;
  Math_cos := Rtrigo_def.cos;
  Math_tan := tan;
  Math_PI := PI;
  Math_floor x := Int (Int_part x);
  Math_fround x := x;
|}.
End Exact.

(** * Properties *)


(** ** The device *)

Section DeviceFacts.
Context {N : Type} {num : Number N}.

Lemma overwrite_all {A : Type} (old new : list A) :
  length old = length new -> GPU.overwrite old 0 new = new.
Proof.
  intros Hlen. unfold GPU.overwrite. cbn [take Nat.add].
  rewrite <- Hlen, drop_all. apply app_nil_r.
Qed.

Lemma writeBufferAll_created_f32 (h : nat) (xs : list N) (device : GPU.Device N) :
  GPU.buffers device !! h
    = Some (GPU.Float32Data (replicate (4 * length xs / 4) (lit 0))) ->
  GPU.writeBufferAll h 0 (GPU.Float32Data xs) device
  = {| GPU.buffers := <[h := GPU.Float32Data xs]> (GPU.buffers device);
       GPU.nextBuffer := GPU.nextBuffer device;
       GPU.submitted := GPU.submitted device |}.
Proof.
  intros Hh. unfold GPU.writeBufferAll, GPU.writeBuffer. rewrite Hh.
  rewrite drop_0, firstn_all.
  replace (4 * length xs / 4) with (length xs)
    by (symmetry; rewrite Nat.mul_comm; apply Nat.div_mul; lia).
  rewrite length_replicate. cbn [Nat.div Nat.divmod fst Nat.add].
  rewrite decide_True by lia.
  rewrite overwrite_all by apply length_replicate. reflexivity.
Qed.

Lemma writeBufferAll_created_u16 (h : nat) (xs : list Z) (device : GPU.Device N) :
  GPU.buffers device !! h
    = Some (GPU.Uint16Data (replicate (2 * length xs / 2) 0%Z)) ->
  GPU.writeBufferAll h 0 (GPU.Uint16Data xs) device
  = {| GPU.buffers := <[h := GPU.Uint16Data xs]> (GPU.buffers device);
       GPU.nextBuffer := GPU.nextBuffer device;
       GPU.submitted := GPU.submitted device |}.
Proof.
  intros Hh. unfold GPU.writeBufferAll, GPU.writeBuffer. rewrite Hh.
  rewrite drop_0, firstn_all.
  replace (2 * length xs / 2) with (length xs)
    by (symmetry; rewrite Nat.mul_comm; apply Nat.div_mul; lia).
  rewrite length_replicate. cbn [Nat.div Nat.divmod fst Nat.add].
  rewrite decide_True by lia.
  rewrite overwrite_all by apply length_replicate. reflexivity.
Qed.

(** The three buffers of a geometry are the next three handles of the
    device, and hold the arrays whole. *)
Lemma upload_eq (vertices colors : list N) (indices : list Z) (device : GPU.Device N) :
  let n := GPU.nextBuffer device in
  BoxGeometry.upload vertices colors indices device
  = ({| vertexBuffer := n; colorBuffer := S n; indexBuffer := S (S n);
        indexCount := length indices |},
     {| GPU.buffers :=
          <[S (S n) := GPU.Uint16Data indices]>
            (<[S n := GPU.Float32Data colors]>
               (<[n := GPU.Float32Data vertices]> (GPU.buffers device)));
        GPU.nextBuffer := S (S (S n));
        GPU.submitted := GPU.submitted device |}).
Proof.
  intros n. unfold BoxGeometry.upload, GPU.createBuffer, GPU.byteLength.
  rewrite writeBufferAll_created_f32 by apply lookup_insert_eq.
  cbn [GPU.buffers GPU.nextBuffer GPU.submitted].
  rewrite writeBufferAll_created_f32 by apply lookup_insert_eq.
  cbn [GPU.buffers GPU.nextBuffer GPU.submitted].
  rewrite writeBufferAll_created_u16 by apply lookup_insert_eq.
  cbn [GPU.buffers GPU.nextBuffer GPU.submitted].
  rewrite !insert_insert_eq. reflexivity.
Qed.
End DeviceFacts.

(** ** utils/math.ts *)

Section MathIEEE.
Context {m : IEEE.Libm}.


(** C8. [normalizeVector] of the zero vector is the zero vector, no
    component of which is NaN; and whenever the length computed for a
    vector is zero the result is the zero vector: the branch that divides
    by the length is not taken. *)
Theorem normalizeVector_zero_is_zero :
  let zero := Vec3.mk (lit 0 : float) (lit 0) (lit 0) in
  normalizeVector zero = zero
  /\ (is_nan (Vec3.x (normalizeVector zero)) = false
      /\ is_nan (Vec3.y (normalizeVector zero)) = false
      /\ is_nan (Vec3.z (normalizeVector zero)) = false)
  /\ forall v : Vec3.t float,
       (vectorLength v === lit 0)%num = true -> normalizeVector v = zero.
Proof.
  repeat split; try (vm_compute; reflexivity).
  intros v Hlength. unfold normalizeVector. rewrite Hlength. reflexivity.
Qed.
End MathIEEE.

(** The guard at a vector of signed zeros, whose length is +0. *)
Lemma normalizeVector_zero_is_zero_witness :
  normalizeVector (num:=IEEE.number (m:=IEEE.series))
    (Vec3.mk (-0)%float 0%float (-0)%float)
  = Vec3.mk 0%float 0%float 0%float.
Proof.
  apply (proj2 (proj2 (normalizeVector_zero_is_zero (m:=IEEE.series)))).
  vm_compute. reflexivity.
Defined.

(** ** geometry/BoxGeometry.ts and the projection matrix *)

Section BoxFacts.
Context {N : Type} {num : Number N}.

(** C5. Whatever the width, height, depth, colour, position and device,
    [BoxGeometry.create] uploads 72 position floats, that is 24 vertices
    of three coordinates, four colour floats for each of the 24 vertices and
    36 indices, every index is below 24, and the [indexCount] it returns
    is 36. *)
Theorem BoxGeometry_create_counts (width height depth : N) (color : Vec4.t N)
    (position : Vec3.t N) (device : GPU.Device N) :
  let vertices := BoxGeometry.create_vertices width height depth position in
  let colors := BoxGeometry.create_colors color in
  let indices := BoxGeometry.create_indices in
  let result := BoxGeometry.create width height depth color position device in
  GPU.buffers result.2 !! vertexBuffer result.1 = Some (GPU.Float32Data vertices)
  /\ GPU.buffers result.2 !! colorBuffer result.1 = Some (GPU.Float32Data colors)
  /\ GPU.buffers result.2 !! indexBuffer result.1 = Some (GPU.Uint16Data indices)
  /\ length vertices = 72
  /\ length vertices = 3 * 24
  /\ length colors = 4 * 24
  /\ length indices = 36
  /\ Forall (fun i => (0 <= i < 24)%Z) indices
  /\ indexCount result.1 = 36.
Proof.
  intros vertices colors indices result. subst result.
  unfold BoxGeometry.create. rewrite upload_eq.
  cbn [fst snd GPU.buffers vertexBuffer colorBuffer indexBuffer indexCount].
  repeat split.
  - rewrite !lookup_insert_ne by lia. apply lookup_insert_eq.
  - rewrite lookup_insert_ne by lia. apply lookup_insert_eq.
  - apply lookup_insert_eq.
  - unfold BoxGeometry.create_indices, Uint16Array_from.
    cbn [fmap list_fmap]. repeat constructor; cbv; discriminate.
Qed.
End BoxFacts.

Lemma fround_zero : IEEE.fround (IEEE.of_Z 0) = 0%float.
Proof. vm_compute. reflexivity. Qed.

Section BoxIEEE.
Context {m : IEEE.Libm}.

(** C6. The colour buffer of [BoxGeometry.create], read in binary64 after
    its binary32 storage: with (r, g, b, a) the stored channels of the
    input colour, the four vertices of the front face (vertices 0 to 3)
    hold (r, g, b, a), those of the back face (g, r, b, a), of the top
    face (b, r, g, a), of the bottom face (r, g, 0, a), of the right face
    (0, g, b, a) and of the left face (r, 0, b, a). *)
Theorem BoxGeometry_face_colors (width height depth : float)
    (color : Vec4.t float) (position : Vec3.t float)
    (device : GPU.Device float) :
  let result := BoxGeometry.create width height depth color position device in
  let r := Math_fround (Vec4.x color) in
  let g := Math_fround (Vec4.y color) in
  let b := Math_fround (Vec4.z color) in
  let a := Math_fround (Vec4.w color) in
  exists colors : list float,
    GPU.buffers result.2 !! colorBuffer result.1 = Some (GPU.Float32Data colors)
    /\ Forall (fun k =>
         vertex_color colors (0 + k) = Vec4.mk r g b a
         /\ vertex_color colors (4 + k) = Vec4.mk g r b a
         /\ vertex_color colors (8 + k) = Vec4.mk b r g a
         /\ vertex_color colors (12 + k) = Vec4.mk r g 0%float a
         /\ vertex_color colors (16 + k) = Vec4.mk 0%float g b a
         /\ vertex_color colors (20 + k) = Vec4.mk r 0%float b a)
       (seq 0 4).
Proof.
  intros result r g b a. subst result.
  exists (BoxGeometry.create_colors color). split.
  - unfold BoxGeometry.create. rewrite upload_eq.
    cbn [fst snd GPU.buffers colorBuffer].
    rewrite lookup_insert_ne by lia. apply lookup_insert_eq.
  - unfold BoxGeometry.create_colors, Float32Array_from.
    cbn [fmap list_fmap]. change (Math_fround (lit 0)) with (IEEE.fround (IEEE.of_Z 0)).
    rewrite fround_zero. repeat constructor.
Qed.
End BoxIEEE.

Section ProjectionExact.
Local Open Scope R_scope.


End ProjectionExact.

(** ** geometry/SphereGeometry.ts *)

Section LoopFacts.
Context {St : Type}.

(** A loop whose state after [i] rounds is [F i]. *)
Lemma rounds_closed_form (F : nat -> St) (body : nat -> St -> option St) (n i : nat) :
  (forall j, i <= j < i + n -> body j (F j) = Some (F (S j))) ->
  rounds body i n (F i) = Some (F (i + n)).
Proof.
  revert i. induction n as [|n IH]; intros i Hbody; cbn [rounds].
  - by rewrite Nat.add_0_r.
  - rewrite Hbody by lia. rewrite IH by (intros j Hj; apply Hbody; lia).
    f_equal. f_equal. lia.
Qed.
End LoopFacts.

Section SphereFacts.
Context {N : Type} {num : Number N}.

Lemma length_flat_map_const {A B : Type} (f : A -> list B) (k : nat) (l : list A) :
  (forall x, length (f x) = k) -> length (flat_map f l) = length l * k.
Proof.
  intros Hf. induction l as [|x l IH]; cbn [flat_map length]; [done|].
  rewrite length_app, Hf, IH. lia.
Qed.

Lemma flat_map_seq_S {B : Type} (f : nat -> list B) (i n : nat) :
  flat_map f (seq i (S n)) = flat_map f (seq i n) ++ f (i + n).
Proof. rewrite seq_S, flat_map_app. cbn [flat_map]. by rewrite app_nil_r. Qed.

Lemma fmap_seq_S {B : Type} (f : nat -> B) (i n : nat) :
  f <$> seq i (S n) = (f <$> seq i n) ++ [f (i + n)].
Proof. by rewrite seq_S, fmap_app. Qed.

Lemma generate_vertices_row (radius : N) (position : Vec3.t N) (W H : Z)
    (iy : nat) (vertices : list N) :
  let columns := Z.to_nat (W + 1) in
  length vertices = (iy * columns * 3)%nat ->
  for_le (Int W) (fun widthSegments ix '(vertices, row) =>
      let v := (lit (Z.of_nat iy) / lit H)%num in
      let u := (lit (Z.of_nat ix) / lit widthSegments)%num in
      let phi := (u * Math_PI * lit 2)%num in
      let theta := (v * Math_PI)%num in
      let sinTheta := Math_sin theta in
      let cosTheta := Math_cos theta in
      let sinPhi := Math_sin phi in
      let cosPhi := Math_cos phi in
      let nx := (cosPhi * sinTheta)%num in
      let ny := cosTheta in
      let nz := (sinPhi * sinTheta)%num in
      let vertices :=
        vertices ++ [(Vec3.x position + radius * nx)%num;
                     (Vec3.y position + radius * ny)%num;
                     (Vec3.z position + radius * nz)%num] in
      let row := row ++ [(Z.of_nat (length vertices) / 3 - 1)%Z] in
      Some (vertices, row)) (vertices, [])
  = Some (vertices ++ flat_map (grid_vertex radius position W H iy) (seq 0 columns),
          grid_index columns iy <$> seq 0 columns).
Proof.
  intros columns Hlen. unfold for_le.
  pose (F := fun j : nat =>
    (vertices ++ flat_map (grid_vertex radius position W H iy) (seq 0 j),
     grid_index columns iy <$> seq 0 j)).
  replace (vertices, @nil Z) with (F 0%nat)
    by (unfold F; cbn [seq flat_map fmap list_fmap]; by rewrite app_nil_r).
  - rewrite (rounds_closed_form F); [reflexivity|].
    intros j _. unfold F. rewrite flat_map_seq_S, fmap_seq_S. cbn [Nat.add].
    cbv zeta. rewrite <- app_assoc. f_equal. f_equal. f_equal. f_equal.
    rewrite !length_app, Hlen.
    rewrite (length_flat_map_const _ 3) by reflexivity.
    rewrite length_seq. cbn [length]. unfold grid_index.
    replace (Z.of_nat (iy * columns * 3 + (j * 3 + 3)))
      with ((Z.of_nat (iy * columns + j) + 1) * 3)%Z by lia.
    rewrite Z.div_mul by lia. lia.
Qed.

(** The vertex loop returns the rows of [grid_vertex], and a grid that
    numbers them row by row. *)
Lemma generate_vertices_closed_form (radius : N) (position : Vec3.t N) (W H : Z) :
  let columns := Z.to_nat (W + 1) in
  let rows := Z.to_nat (H + 1) in
  SphereGeometry.generate_vertices radius position (Int W) (Int H)
  = Some (flat_map (fun iy =>
            flat_map (grid_vertex radius position W H iy) (seq 0 columns))
            (seq 0 rows),
          (fun iy => grid_index columns iy <$> seq 0 columns) <$> seq 0 rows).
Proof.
  intros columns rows. unfold SphereGeometry.generate_vertices.
  unfold for_le at 1. fold rows.
  pose (F := fun j : nat =>
    (flat_map (fun iy =>
       flat_map (grid_vertex radius position W H iy) (seq 0 columns)) (seq 0 j),
     (fun iy => grid_index columns iy <$> seq 0 columns) <$> seq 0 j)).
  change (@nil N, @nil (list Z)) with (F 0%nat).
  rewrite (rounds_closed_form F); [reflexivity|].
  intros j _. unfold F at 1.
  pose proof (generate_vertices_row radius position W H j
    (flat_map (fun iy =>
       flat_map (grid_vertex radius position W H iy) (seq 0 columns)) (seq 0 j)))
    as Hrow.
  cbv zeta in Hrow. cbv zeta. rewrite Hrow.
  - unfold F. by rewrite flat_map_seq_S, fmap_seq_S.
  - rewrite (length_flat_map_const _ (Z.to_nat (W + 1) * 3)).
    + rewrite length_seq. lia.
    + intros iy. rewrite (length_flat_map_const _ 3) by reflexivity.
      by rewrite length_seq.
Qed.

Lemma grid_get_closed_form (columns rows iy ix : nat) :
  (iy < rows)%nat -> (ix < columns)%nat ->
  SphereGeometry.grid_get
    ((fun iy => grid_index columns iy <$> seq 0 columns) <$> seq 0 rows) iy ix
  = Some (grid_index columns iy ix).
Proof.
  intros Hiy Hix. unfold SphereGeometry.grid_get.
  rewrite list_lookup_fmap, lookup_seq_lt by done. cbn [fmap option_fmap option_map].
  rewrite list_lookup_fmap, lookup_seq_lt by done. reflexivity.
Qed.

(** The index loop reads the grid within its bounds and returns the
    triangles of [quad_indices]. *)
Lemma generate_indices_closed_form (W H : Z) :
  (0 <= W)%Z -> (0 <= H)%Z ->
  let columns := Z.to_nat (W + 1) in
  let rows := Z.to_nat (H + 1) in
  SphereGeometry.generate_indices
    ((fun iy => grid_index columns iy <$> seq 0 columns) <$> seq 0 rows)
    (Int W) (Int H)
  = Some (flat_map (fun iy =>
            flat_map (quad_indices columns H iy) (seq 0 (Z.to_nat W)))
            (seq 0 (Z.to_nat H))).
Proof.
  intros HW HH columns rows. unfold SphereGeometry.generate_indices.
  unfold for_lt at 1.
  pose (F := fun j : nat =>
    flat_map (fun iy =>
      flat_map (quad_indices columns H iy) (seq 0 (Z.to_nat W))) (seq 0 j)).
  etrans; [apply (rounds_closed_form F)|reflexivity].
  intros iy Hiy. unfold for_lt.
  pose (G := fun j : nat =>
    F iy ++ flat_map (quad_indices columns H iy) (seq 0 j)).
  replace (F iy) with (G 0%nat) at 1
    by (unfold G; cbn [seq flat_map]; by rewrite app_nil_r).
  rewrite (rounds_closed_form G).
  - unfold G, F. by rewrite flat_map_seq_S.
  - intros ix Hix.
    rewrite !grid_get_closed_form by (subst columns rows; lia).
    unfold G. rewrite flat_map_seq_S. cbn [Nat.add].
    generalize (flat_map (quad_indices columns H iy) (seq 0 ix)).
    intros done_so_far. unfold quad_indices.
    repeat case_decide; cbv zeta;
      rewrite <- ?app_assoc, ?app_nil_r; reflexivity.
Qed.



Lemma quads_in_range (W H : Z) :
  (0 <= W)%Z -> (0 <= H)%Z ->
  let columns := Z.to_nat (W + 1) in
  let rows := Z.to_nat (H + 1) in
  Forall (fun i => 0 <= i < Z.of_nat (columns * rows))%Z
    (flat_map (fun iy =>
       flat_map (quad_indices columns H iy) (seq 0 (Z.to_nat W)))
       (seq 0 (Z.to_nat H))).
Proof.
  intros HW HH columns rows. apply List.Forall_forall. intros i Hi.
  apply in_flat_map in Hi as (iy & Hiy & Hi).
  apply in_flat_map in Hi as (ix & Hix & Hi).
  apply in_seq in Hiy, Hix. unfold quad_indices, grid_index in Hi.
  apply in_app_or in Hi.
  assert (Z.to_nat W + 1 = columns)%nat as Hc by (subst columns; lia).
  assert (Z.to_nat H + 1 = rows)%nat as Hr by (subst rows; lia).
  destruct Hi as [Hi|Hi]; case_decide; cbn [In] in Hi;
    intuition (subst i; nia).
Qed.

Lemma Uint16Array_from_in_range (bound : Z) (xs : list Z) :
  Forall (fun i => 0 <= i < bound)%Z xs ->
  Forall (fun i => 0 <= i < bound)%Z (Uint16Array_from xs).
Proof.
  unfold Uint16Array_from. intros Hxs. apply Forall_fmap.
  eapply Forall_impl; [exact Hxs|]. intros i Hi. cbn beta in *.
  assert (0 <= i mod 65536 < 65536)%Z by (apply Z.mod_pos_bound; lia).
  assert (i mod 65536 <= i)%Z by (apply Z.mod_le; lia).
  unfold compose. lia.
Qed.

Lemma length_generate_colors (vertices : list N) (radius : N)
    (color : Vec4.t N) (position : Vec3.t N) :
  length (SphereGeometry.generate_colors vertices radius color position)
  = (length vertices / 3 * 4)%nat.
Proof.
  unfold SphereGeometry.generate_colors.
  generalize (seq 0 (length vertices / 3)). intros l.
  rewrite <- (length_replicate (length vertices / 3 * 4) (lit 0 : N)) at 2.
  unfold Float32Array_new. generalize (replicate (length vertices / 3 * 4) (lit 0 : N)).
  induction l as [|i l IH]; intros colors; cbn [foldl]; [done|].
  rewrite IH. unfold SphereGeometry.color_vertex, f32_store.
  repeat match goal with |- context [if ?b then _ else _] => destruct b end;
    by rewrite !length_insert.
Qed.

Lemma Math_max_Int (lo : Z) (x : jsint) (z : Z) :
  Math_max lo x = Int z -> (lo <= z)%Z.
Proof. destruct x; cbn [Math_max]; intros [= <-]; lia. Qed.

(** [create_arrays] returns once the two segment counts are integers. *)
Lemma create_arrays_closed_form (radius widthSegments heightSegments : N)
    (color : Vec4.t N) (position : Vec3.t N) (W H : Z) :
  Math_max 3 (Math_floor widthSegments) = Int W ->
  Math_max 2 (Math_floor heightSegments) = Int H ->
  SphereGeometry.create_arrays radius widthSegments heightSegments color position
  = Some (Float32Array_from (sphere_vertices radius position W H),
          SphereGeometry.generate_colors (sphere_vertices radius position W H)
            radius color position,
          Uint16Array_from (sphere_indices W H)).
Proof.
  intros HW HH. unfold SphereGeometry.create_arrays. rewrite HW, HH.
  apply Math_max_Int in HW, HH.
  rewrite generate_vertices_closed_form.
  rewrite generate_indices_closed_form by lia. reflexivity.
Qed.

Lemma length_sphere_vertices (radius : N) (position : Vec3.t N) (W H : Z) :
  (0 <= W)%Z -> (0 <= H)%Z ->
  Z.of_nat (length (sphere_vertices radius position W H))
  = (3 * ((W + 1) * (H + 1)))%Z.
Proof.
  intros HW HH. unfold sphere_vertices.
  rewrite (length_flat_map_const _ (Z.to_nat (W + 1) * 3)).
  - rewrite length_seq. nia.
  - intros iy. rewrite (length_flat_map_const _ 3) by reflexivity.
    by rewrite length_seq.
Qed.

End SphereFacts.

Section SphereRun.
#[local] Existing Instance IEEE.series.


End SphereRun.

(** ** The colour gradient of the sphere *)

Section TypedArrayFacts.
Context {N : Type} {num : Number N}.



End TypedArrayFacts.

Section TriplesFacts.
Context {B : Type} (P : B -> Prop).



End TriplesFacts.

Section ColorFacts.
Context {N : Type} {num : Number N}.


End ColorFacts.


Section GradientExact.
Local Open Scope R_scope.





End GradientExact.


Section GradientRun.
#[local] Existing Instance IEEE.series.

End GradientRun.

(** ** main.ts: the render pass *)

Section PassFacts.

Lemma draws_from_app (state : GPU.Draw) (l1 l2 : list GPU.RenderCommand) :
  GPU.draws_from state (l1 ++ l2)
  = GPU.draws_from state l1 ++ GPU.draws_from (foldl GPU.execute state l1) l2.
Proof.
  revert state. induction l1 as [|c l1 IH]; intros state; [reflexivity|].
  cbn [app GPU.draws_from foldl]. destruct c; rewrite IH; reflexivity.
Qed.

Lemma foldl_append {A B : Type} (f : A -> list B) (l : list A) (acc : list B) :
  foldl (fun acc x => acc ++ f x) acc l = acc ++ concat (f <$> l).
Proof.
  revert acc. induction l as [|x l IH]; intros acc; cbn [foldl fmap list_fmap concat].
  - by rewrite app_nil_r.
  - by rewrite IH, app_assoc.
Qed.
End PassFacts.

Section RenderFacts.
Context {N : Type} {num : Number N}.

Lemma decide_mod2_even {A : Type} (i : nat) (a b : A) :
  (if decide (i mod 2 = 0) then a else b) = if Nat.even i then a else b.
Proof.
  assert (Nat.even i = Nat.even (i mod 2)) as ->.
  { rewrite (Nat.div_mod_eq i 2) at 1.
    by rewrite Nat.add_comm, Nat.even_add_mul_2. }
  pose proof (Nat.mod_upper_bound i 2 ltac:(lia)).
  case_decide as Hi.
  - by rewrite Hi.
  - assert (i mod 2 = 1)%nat as -> by lia. reflexivity.
Qed.

Lemma mask_pass_eq (app : VelesPortals N) (bindGroup : GPU.BindGroup)
    (l : list (CubeFace N)) (renderPass : list GPU.RenderCommand) :
  foldl (fun renderPass face =>
      StencilManager.renderStencilMask renderPass (geometry face)
        (stencilValue face) (cameraBindGroup (renderer app)) bindGroup)
    renderPass l
  = renderPass
    ++ concat ((fun face =>
         StencilManager.renderStencilMask [] (geometry face)
           (stencilValue face) (cameraBindGroup (renderer app)) bindGroup)
         <$> l).
Proof.
  revert renderPass. induction l as [|face l IH]; intros renderPass;
    cbn [foldl fmap list_fmap concat].
  - by rewrite app_nil_r.
  - rewrite IH. unfold StencilManager.renderStencilMask.
    cbn [Datatypes.app]. by rewrite <- app_assoc.
Qed.

Lemma object_pass_eq (app : VelesPortals N) (l : list nat)
    (renderPass : list GPU.RenderCommand) :
  foldl (fun renderPass i =>
      let stencilValue := (i + 1)%nat in
      if decide (i mod 2 = 0)%nat
      then Renderer.renderObject (renderer app) renderPass (innerCube app)
             stencilValue (identityBindGroup app)
      else Renderer.renderObject (renderer app) renderPass (innerSphere app)
             stencilValue (identityBindGroup app))
    renderPass l
  = renderPass
    ++ concat ((fun i =>
         Renderer.renderObject (renderer app) [] (Frame.solid app i) (i + 1)
           (identityBindGroup app))
         <$> l).
Proof.
  revert renderPass. induction l as [|i l IH]; intros renderPass;
    cbn [foldl fmap list_fmap concat].
  - by rewrite app_nil_r.
  - rewrite IH. cbv zeta. rewrite decide_mod2_even. unfold Frame.solid.
    destruct (Nat.even i); unfold Renderer.renderObject;
      cbn [Datatypes.app]; by rewrite <- app_assoc.
Qed.

(** The commands of the three passes. *)
Lemma render_pass_eq (app : VelesPortals N) (bindGroup : GPU.BindGroup) :
  VelesPortals.render_pass app bindGroup
  = concat ((fun face =>
       StencilManager.renderStencilMask [] (geometry face) (stencilValue face)
         (cameraBindGroup (renderer app)) bindGroup)
       <$> faces (transparentCube app))
    ++ concat ((fun i =>
       Renderer.renderObject (renderer app) [] (Frame.solid app i) (i + 1)
         (identityBindGroup app))
       <$> seq 0 (length (faces (transparentCube app))))
    ++ Renderer.renderTransparentObject (renderer app) []
         (outerCube (transparentCube app)) bindGroup.
Proof.
  unfold VelesPortals.render_pass, Renderer.beginRenderPass.
  rewrite mask_pass_eq, object_pass_eq.
  unfold Renderer.renderTransparentObject. cbn [Datatypes.app].
  by rewrite <- app_assoc.
Qed.

Lemma mask_pass_draws (app : VelesPortals N) (l : list (CubeFace N))
    (state : GPU.Draw) :
  GPU.vertexBuffer1 state = None ->
  GPU.draws_from state
    (concat ((fun face =>
       StencilManager.renderStencilMask [] (geometry face) (stencilValue face)
         (cameraBindGroup (renderer app)) (Frame.rotation app)) <$> l))
  = Frame.mask app <$> l.
Proof.
  revert state. induction l as [|face l IH]; intros state Hstate;
    cbn [fmap list_fmap concat]; [reflexivity|].
  destruct state as [p r b0 b1 v0 v1 ib ic]. cbn [GPU.vertexBuffer1] in Hstate.
  subst v1. rewrite draws_from_app, IH; reflexivity.
Qed.

Lemma object_pass_draws (app : VelesPortals N) (l : list nat)
    (state : GPU.Draw) :
  GPU.draws_from state
    (concat ((fun i =>
       Renderer.renderObject (renderer app) [] (Frame.solid app i) (i + 1)
         (identityBindGroup app)) <$> l))
  = Frame.object app <$> l.
Proof.
  revert state. induction l as [|i l IH]; intros state;
    cbn [fmap list_fmap concat]; [reflexivity|].
  destruct state as [p r b0 b1 v0 v1 ib ic].
  rewrite draws_from_app, IH. reflexivity.
Qed.

Lemma object_pass_reference (app : VelesPortals N) (n i : nat)
    (state : GPU.Draw) :
  GPU.stencilReference
    (foldl GPU.execute state
       (concat ((fun i =>
          Renderer.renderObject (renderer app) [] (Frame.solid app i) (i + 1)
            (identityBindGroup app)) <$> seq i (S n))))
  = (i + n + 1)%nat.
Proof.
  revert i state. induction n as [|n IH]; intros i state.
  - destruct state as [p r b0 b1 v0 v1 ib ic].
    cbn [seq fmap list_fmap concat]. rewrite app_nil_r.
    cbn [foldl Renderer.renderObject Datatypes.app GPU.execute
         GPU.stencilReference]. lia.
  - rewrite <- cons_seq. cbn [fmap list_fmap concat].
    rewrite foldl_app, IH. lia.
Qed.

(** The recorded commands execute to the draws of [Frame.draws]. *)
Lemma render_pass_draws (app : VelesPortals N) :
  GPU.draws (VelesPortals.render_pass app (Frame.rotation app))
  = Frame.draws app (length (faces (transparentCube app))).
Proof.
  rewrite render_pass_eq. unfold GPU.draws, Frame.draws.
  rewrite !draws_from_app, mask_pass_draws, object_pass_draws by reflexivity.
  do 2 f_equal.
  assert (GPU.stencilReference
            (foldl GPU.execute
               (foldl GPU.execute GPU.unbound
                  (concat ((fun face =>
                     StencilManager.renderStencilMask [] (geometry face)
                       (stencilValue face) (cameraBindGroup (renderer app))
                       (Frame.rotation app)) <$> faces (transparentCube app))))
               (concat ((fun i =>
                  Renderer.renderObject (renderer app) [] (Frame.solid app i)
                    (i + 1) (identityBindGroup app))
                  <$> seq 0 (length (faces (transparentCube app))))))
          = length (faces (transparentCube app))) as Hreference.
  { destruct (faces (transparentCube app)) as [|face l]; [reflexivity|].
    cbn [length]. rewrite object_pass_reference. lia. }
  revert Hreference. generalize (length (faces (transparentCube app))).
  intros n. generalize (foldl GPU.execute
    (foldl GPU.execute GPU.unbound
       (concat ((fun face =>
          StencilManager.renderStencilMask [] (geometry face)
            (stencilValue face) (cameraBindGroup (renderer app))
            (Frame.rotation app)) <$> faces (transparentCube app))))
    (concat ((fun i =>
       Renderer.renderObject (renderer app) [] (Frame.solid app i)
         (i + 1) (identityBindGroup app)) <$> seq 0 n))).
  intros [p r b0 b1 v0 v1 ib ic]. cbn [GPU.stencilReference].
  intros ->. reflexivity.
Qed.
End RenderFacts.

Section SceneFacts.
Context {N : Type} {num : Number N}.

Lemma Frame_draws_scene (app app' : VelesPortals N) (n : nat) :
  scene app = scene app' -> Frame.draws app n = Frame.draws app' n.
Proof.
  unfold scene. intros [= Hfaces Hcube Hbuffer Hcamera Hinner Hsphere Hid].
  unfold Frame.draws, Frame.mask, Frame.object, Frame.shell, Frame.solid,
    Frame.rotation.
  by rewrite Hfaces, Hcube, Hbuffer, Hcamera, Hinner, Hsphere, Hid.
Qed.

Lemma scene_render (time : N) (app : VelesPortals N) :
  scene (VelesPortals.render time app) = scene app.
Proof. reflexivity. Qed.

Lemma scene_handle (app : VelesPortals N) (event : VelesPortals.Event) :
  scene (VelesPortals.handle app event) = scene app.
Proof. destruct event; reflexivity. Qed.

(** No event changes what a frame draws from. *)
Lemma scene_run (events : list VelesPortals.Event) (app : VelesPortals N) :
  scene (VelesPortals.run events app) = scene app.
Proof.
  unfold VelesPortals.run. revert app.
  induction events as [|event events IH]; intros app; cbn [foldl]; [done|].
  by rewrite IH, scene_handle.
Qed.

Lemma frame_pass_eq (time : N) (app : VelesPortals N) :
  exists app' : VelesPortals N,
    VelesPortals.frame_pass time app
    = VelesPortals.render_pass app' (Frame.rotation app')
    /\ scene app' = scene app.
Proof.
  unfold VelesPortals.frame_pass, VelesPortals.animate, VelesPortals.render.
  unfold TransparentCube.updateRotation, Renderer.endRenderPass, GPU.submit.
  cbn [renderer device GPU.submitted]. rewrite last_snoc.
  match goal with
  | |- context [VelesPortals.render_pass ?app' _] => exists app'
  end.
  split; reflexivity.
Qed.

(** The pass a frame submits is the one it has just recorded. *)
Lemma frame_pass_draws (time : N) (app : VelesPortals N) :
  GPU.draws (VelesPortals.frame_pass time app)
  = Frame.draws app (length (faces (transparentCube app))).
Proof.
  destruct (frame_pass_eq time app) as (app' & -> & Hscene).
  rewrite render_pass_draws.
  replace (faces (transparentCube app')) with (faces (transparentCube app))
    by (unfold scene in Hscene; congruence).
  by apply Frame_draws_scene.
Qed.

Lemma createFaces_stencilValues (size : N) (l : list nat)
    (faces0 : list (CubeFace N)) (device : GPU.Device N) :
  let halfSize := (size / lit 2)%num in
  let faceSize := (size * dec 95 100)%num in
  stencilValue <$>
    (foldl (fun '(faces, device) i =>
        let stencilValue := (i + 1)%nat in
        let '(faceGeometry, device) :=
          BoxGeometry.createQuad faceSize faceSize
            (Vec4.mk (lit 1) (lit 1) (lit 1) (lit 1))
            (nth i (TransparentCube.faceFacePositions halfSize) origin)
            device in
        let rotation := nth i TransparentCube.faceRotations origin in
        (faces ++ [{| geometry := faceGeometry;
                      stencilValue := stencilValue;
                      transform :=
                        createRotationMatrix (Vec3.x rotation)
                          (Vec3.y rotation) (Vec3.z rotation) |}],
         device))
      (faces0, device) l).1
  = (stencilValue <$> faces0) ++ ((fun i => i + 1)%nat <$> l).
Proof.
  intros halfSize faceSize. revert faces0 device.
  induction l as [|i l IH]; intros faces0 device; cbn [foldl fmap list_fmap].
  - by rewrite app_nil_r.
  - destruct (BoxGeometry.createQuad _ _ _ _ _) as [faceGeometry device'].
    rewrite IH, fmap_app. cbn [fmap list_fmap stencilValue].
    by rewrite <- app_assoc.
Qed.

Lemma new_stencilValues (size : N) (device : GPU.Device N) :
  stencilValue <$> faces (TransparentCube.new size device).1
  = [1; 2; 3; 4; 5; 6]%nat.
Proof.
  unfold TransparentCube.new.
  destruct (BoxGeometry.create _ _ _ _ _ _) as [outer device1].
  pose proof (createFaces_stencilValues size (seq 0 6) [] device1) as Hfaces.
  cbv zeta in Hfaces. unfold TransparentCube.createFaces.
  destruct (foldl _ _ _) as [faces' device2].
  destruct (GPU.createBuffer _ _ _) as [buffer device3].
  exact Hfaces.
Qed.
End SceneFacts.

(** ** The device through initialization and events *)

Section AllocationFacts.
Context {N : Type} {num : Number N}.

Lemma extends_refl (device : GPU.Device N) : extends device device.
Proof. split; [lia|done]. Qed.

Lemma extends_trans (d1 d2 d3 : GPU.Device N) :
  extends d1 d2 -> extends d2 d3 -> extends d1 d3.
Proof.
  intros [Hn12 H12] [Hn23 H23]. split; [lia|].
  intros h Hh. rewrite H23, H12 by lia. done.
Qed.

Lemma createBuffer_extends (size : nat) (usage : GPU.BufferUsage)
    (device : GPU.Device N) :
  extends device (GPU.createBuffer size usage device).2
  /\ (GPU.createBuffer size usage device).1 = GPU.nextBuffer device
  /\ GPU.nextBuffer (GPU.createBuffer size usage device).2
     = S (GPU.nextBuffer device).
Proof.
  unfold GPU.createBuffer. cbn [fst snd GPU.nextBuffer GPU.buffers].
  repeat split; cbn [GPU.nextBuffer GPU.buffers]; [lia|].
  intros h Hh. apply lookup_insert_ne. lia.
Qed.

Lemma upload_extends (vertices colors : list N) (indices : list Z)
    (device : GPU.Device N) :
  extends device (BoxGeometry.upload vertices colors indices device).2.
Proof.
  rewrite upload_eq. cbv zeta. cbn [snd]. split; cbn [GPU.nextBuffer GPU.buffers].
  - lia.
  - intros h Hh. by rewrite !lookup_insert_ne by lia.
Qed.

Lemma writeBuffer_nextBuffer (h offset : nat) (data : GPU.BufferData N)
    (dataOffset size : nat) (device : GPU.Device N) :
  GPU.nextBuffer (GPU.writeBuffer h offset data dataOffset size device)
  = GPU.nextBuffer device.
Proof.
  unfold GPU.writeBuffer.
  repeat case_match; reflexivity.
Qed.

Lemma writeBuffer_other (h h' offset : nat) (data : GPU.BufferData N)
    (dataOffset size : nat) (device : GPU.Device N) :
  h' ≠ h ->
  GPU.buffers (GPU.writeBuffer h offset data dataOffset size device) !! h'
  = GPU.buffers device !! h'.
Proof.
  intros Hh. unfold GPU.writeBuffer.
  repeat case_match; cbn [GPU.buffers];
    rewrite ?lookup_insert_ne by done; reflexivity.
Qed.

Lemma writeBuffer_matrix (h : nat) (old matrix : list N)
    (device : GPU.Device N) :
  GPU.buffers device !! h = Some (GPU.Float32Data old) ->
  length old = 16 -> length matrix = 16 ->
  GPU.buffers (GPU.writeBuffer h 0 (GPU.Float32Data matrix) 0 16 device) !! h
  = Some (GPU.Float32Data matrix).
Proof.
  intros Hh Hold Hmatrix. unfold GPU.writeBuffer. rewrite Hh.
  rewrite drop_0, <- Hmatrix, firstn_all.
  cbn [Nat.div Nat.divmod fst Nat.add]. rewrite decide_True by lia.
  cbn [GPU.buffers]. rewrite lookup_insert_eq.
  rewrite overwrite_all by lia. reflexivity.
Qed.

Lemma length_createRotationMatrix (x y z : N) :
  length (createRotationMatrix x y z) = 16.
Proof. reflexivity. Qed.

Lemma length_createIdentityMatrix : length (createIdentityMatrix (N:=N)) = 16.
Proof. reflexivity. Qed.

Lemma length_createViewMatrix (position target up : Vec3.t N) :
  length (createViewMatrix position target up) = 16.
Proof. reflexivity. Qed.

Lemma length_createProjectionMatrix (fov aspect near far : N) :
  length (createProjectionMatrix fov aspect near far) = 16.
Proof. reflexivity. Qed.
End AllocationFacts.

Section WiringFacts.
Context {N : Type} {num : Number N}.

Lemma create_extends (width height depth : N) (color : Vec4.t N)
    (position : Vec3.t N) (device : GPU.Device N) :
  extends device
    (BoxGeometry.create width height depth color position device).2.
Proof. apply upload_extends. Qed.

Lemma createQuad_extends (width height : N) (color : Vec4.t N)
    (position : Vec3.t N) (device : GPU.Device N) :
  extends device (BoxGeometry.createQuad width height color position device).2.
Proof. apply upload_extends. Qed.

Lemma createFaces_extends (size : N) (faces0 : list (CubeFace N))
    (device : GPU.Device N) :
  extends device (TransparentCube.createFaces size faces0 device).2.
Proof.
  unfold TransparentCube.createFaces. generalize (seq 0 6). intros l.
  revert faces0 device. induction l as [|i l IH]; intros faces0 device;
    cbn [foldl]; [apply extends_refl|].
  match goal with
  | |- context [BoxGeometry.createQuad ?w ?h ?c ?p device] =>
      pose proof (createQuad_extends w h c p device) as Hquad;
      destruct (BoxGeometry.createQuad w h c p device) as [g device']
  end.
  eapply extends_trans; [exact Hquad|apply IH].
Qed.

(** The constructor of the cube leaves the buffers of the device it was
    given as they were, and its rotation matrix in a buffer of its own. *)
Lemma new_wired (size : N) (device : GPU.Device N) :
  let cube := (TransparentCube.new size device).1 in
  let device' := (TransparentCube.new size device).2 in
  extends device device'
  /\ GPU.nextBuffer device <= rotationTransformBuffer cube
     < GPU.nextBuffer device'
  /\ GPU.buffers device' !! rotationTransformBuffer cube
     = Some (GPU.Float32Data (rotationMatrix cube))
  /\ length (rotationMatrix cube) = 16.
Proof.
  unfold TransparentCube.new.
  pose proof (create_extends size size size
    (Vec4.mk (dec 9 10) (dec 9 10) (dec 9 10) (dec 5 100))
    (Vec3.mk (lit 0) (lit 0) (lit 0)) device) as H1.
  destruct (BoxGeometry.create _ _ _ _ _ _) as [outer device1].
  pose proof (createFaces_extends size [] device1) as H2.
  destruct (TransparentCube.createFaces _ _ _) as [faces' device2].
  pose proof (createBuffer_extends 64 GPU.UNIFORM device2) as (H3 & Hh & Hn).
  assert (GPU.buffers (GPU.createBuffer 64 GPU.UNIFORM device2).2
            !! (GPU.createBuffer 64 GPU.UNIFORM device2).1
          = Some (GPU.Float32Data (replicate 16 (lit 0)))) as Hzeros
    by apply lookup_insert_eq.
  destruct (GPU.createBuffer _ _ _) as [buffer device3].
  cbn [fst snd] in *. subst buffer.
  unfold TransparentCube.updateRotation.
  cbn [fst snd rotationTransformBuffer rotationMatrix].
  destruct H1 as [Hn1 H1], H2 as [Hn2 H2], H3 as [Hn3 H3].
  repeat split.
  - rewrite writeBuffer_nextBuffer. lia.
  - intros h Hh. rewrite writeBuffer_other by lia.
    rewrite H3, H2, H1 by lia. done.
  - lia.
  - rewrite writeBuffer_nextBuffer. lia.
  - eapply writeBuffer_matrix; [exact Hzeros|apply length_replicate|reflexivity].
Qed.

Lemma writeBuffer_at (h offset size : nat) (old src : list N)
    (device : GPU.Device N) :
  GPU.buffers device !! h = Some (GPU.Float32Data old) ->
  length src = size ->
  offset / 4 + size <= length old ->
  GPU.writeBuffer h offset (GPU.Float32Data src) 0 size device
  = {| GPU.buffers :=
         <[h := GPU.Float32Data (GPU.overwrite old (offset / 4) src)]>
           (GPU.buffers device);
       GPU.nextBuffer := GPU.nextBuffer device;
       GPU.submitted := GPU.submitted device |}.
Proof.
  intros Hh <- Hfits. unfold GPU.writeBuffer.
  rewrite Hh, drop_0, firstn_all. by rewrite decide_True.
Qed.

Lemma createUniformBuffer_eq (camera : Camera N) (device : GPU.Device N) :
  length (viewMatrix camera) = 16 -> length (projectionMatrix camera) = 16 ->
  CameraController.createUniformBuffer camera device
  = (GPU.nextBuffer device,
     {| GPU.buffers :=
          <[GPU.nextBuffer device :=
              GPU.Float32Data (viewMatrix camera ++ projectionMatrix camera)]>
            (GPU.buffers device);
        GPU.nextBuffer := S (GPU.nextBuffer device);
        GPU.submitted := GPU.submitted device |}).
Proof.
  intros Hview Hprojection.
  unfold CameraController.createUniformBuffer, GPU.createBuffer,
    CameraController.updateUniformBuffer.
  f_equal. change (128 / 4) with 32.
  rewrite (writeBuffer_at _ 0 16 (replicate 32 (lit 0)))
    by (first [apply lookup_insert_eq | exact Hview
              | rewrite length_replicate; cbn; lia]).
  rewrite (writeBuffer_at _ 64 16
             (GPU.overwrite (replicate 32 (lit 0)) (0 / 4) (viewMatrix camera))).
  - cbn [GPU.buffers GPU.nextBuffer GPU.submitted].
    rewrite !insert_insert_eq. do 3 f_equal.
    unfold GPU.overwrite. change (0 / 4) with 0. change (64 / 4) with 16.
    rewrite take_0, Hview, Hprojection. cbn [Datatypes.app Nat.add].
    rewrite drop_replicate. rewrite take_app_length' by done.
    rewrite drop_ge by (rewrite length_app, length_replicate; lia).
    by rewrite app_nil_r.
  - apply lookup_insert_eq.
  - exact Hprojection.
  - unfold GPU.overwrite. change (0 / 4) with 0. change (64 / 4) with 16.
    rewrite take_0, Hview. cbn [Datatypes.app Nat.add].
    rewrite drop_replicate, length_app, length_replicate. cbn; lia.
Qed.
End WiringFacts.

Section EventFacts.
Context {N : Type} {num : Number N}.

(** A frame writes the rotation buffer and no other; a resize writes none. *)
Lemma wired_handle (camera : list N) (app : VelesPortals N)
    (event : VelesPortals.Event) :
  wired camera app -> wired camera (VelesPortals.handle app event).
Proof.
  unfold wired. intros (Hc & Hi & Hcamera & Hidentity & Hrotation & Hlength).
  destruct event as [time|innerWidth innerHeight]; [|by repeat split].
  unfold VelesPortals.handle, VelesPortals.animate, VelesPortals.render,
    TransparentCube.updateRotation, Renderer.endRenderPass, GPU.submit,
    VelesPortals.with_device.
  cbn [renderer transparentCube identityBindGroup device cameraBindGroup
       rotationTransformBuffer rotationMatrix GPU.buffers].
  repeat split; try done.
  - by rewrite writeBuffer_other.
  - by rewrite writeBuffer_other.
  - by eapply writeBuffer_matrix.
Qed.

Lemma wired_run (camera : list N) (events : list VelesPortals.Event)
    (app : VelesPortals N) :
  wired camera app -> wired camera (VelesPortals.run events app).
Proof.
  unfold VelesPortals.run. revert app.
  induction events as [|event events IH]; intros app Happ; cbn [foldl];
    [done|].
  by apply IH, wired_handle.
Qed.

(** [initialize] returns, with the three transform and camera buffers
    holding the matrices they were created for. *)
Lemma initialize_wired (canvas : Canvas N) :
  Math_max 3 (Math_floor (N:=N) (lit 24)) = Int 24 ->
  Math_max 2 (Math_floor (N:=N) (lit 18)) = Int 18 ->
  exists app : VelesPortals N,
    VelesPortals.initialize canvas = Some app
    /\ wired (initial_camera canvas) app
    /\ stencilValue <$> faces (transparentCube app) = [1; 2; 3; 4; 5; 6]
    /\ cameraController (renderer app)
       = CameraController.new (Vec3.mk (lit 0) (lit 0) (lit 5)) canvas.
Proof.
  intros HW HH. unfold VelesPortals.initialize, Renderer.initialize.
  rewrite createUniformBuffer_eq by reflexivity. cbn [device].
  set (device1 := {| GPU.buffers := _ |}).
  pose proof (new_wired (lit 2) device1) as (Hcube & Hrotation & Hmatrix & Hlength).
  pose proof (new_stencilValues (lit 2) device1) as Hfaces.
  destruct (TransparentCube.new (lit 2) device1) as [cube device2].
  cbn [fst snd] in *.
  match goal with
  | |- context [BoxGeometry.create ?w ?h ?d ?c ?p device2] =>
      pose proof (create_extends w h d c p device2) as Hinner;
      destruct (BoxGeometry.create w h d c p device2) as [inner device3]
  end.
  cbn [snd] in Hinner. unfold SphereGeometry.create.
  rewrite (create_arrays_closed_form _ _ _ _ _ 24 18) by assumption.
  match goal with
  | |- context [BoxGeometry.upload ?v ?c ?i device3] =>
      pose proof (upload_extends v c i device3) as Hsphere;
      destruct (BoxGeometry.upload v c i device3) as [sphere device4]
  end.
  cbn [snd] in Hsphere.
  pose proof (createBuffer_extends 64 GPU.UNIFORM device4) as (Hbuffer & Hh & Hn).
  assert (GPU.buffers (GPU.createBuffer 64 GPU.UNIFORM device4).2
            !! (GPU.createBuffer 64 GPU.UNIFORM device4).1
          = Some (GPU.Float32Data (replicate 16 (lit 0)))) as Hzeros
    by apply lookup_insert_eq.
  destruct (GPU.createBuffer 64 GPU.UNIFORM device4) as [buffer device5].
  cbn [fst snd] in *. subst buffer.
  eexists. split; [reflexivity|].
  destruct Hcube as [Hn12 H12], Hinner as [Hn23 H23], Hsphere as [Hn34 H34],
    Hbuffer as [Hn45 H45].
  assert (GPU.nextBuffer device1 = 1) as Hn1 by reflexivity.
  split; [|split; [exact Hfaces|reflexivity]].
  unfold wired, Renderer.createTransformBindGroup, VelesPortals.with_device.
  cbn [renderer transparentCube identityBindGroup device cameraBindGroup
       GPU.buffer GPU.buffers].
  repeat split.
  - cbn [GPU.nextBuffer GPU.requestDevice]. lia.
  - lia.
  - rewrite writeBuffer_other by (cbn [GPU.nextBuffer GPU.requestDevice]; lia).
    cbn [GPU.nextBuffer GPU.requestDevice].
    rewrite H45, H34, H23, H12 by lia. apply lookup_insert_eq.
  - eapply writeBuffer_matrix; [exact Hzeros|apply length_replicate|reflexivity].
  - rewrite writeBuffer_other by lia.
    rewrite H45, H34, H23 by lia. exact Hmatrix.
  - exact Hlength.
Qed.
End EventFacts.

(** ** The faces, the frame and the camera's buffer *)

Section CubeFacts.
Context {N : Type} {num : Number N}.

(** C3. A constructed [TransparentCube] has six faces; the face of index i
    has the stencil value i + 1, so that the values are 1 to 6 in order,
    without a repeat, and a value is one of a face exactly when it lies
    between 1 and 6.  In a frame of any application around the cube the
    six draws after the six masks are gated by the references 1 to 6 and
    draw the buffers of the inner cube for the indices 0, 2 and 4 and
    those of the inner sphere for the indices 1, 3 and 5. *)
Theorem TransparentCube_faces (size : N) (device : GPU.Device N) :
  let cube := (TransparentCube.new size device).1 in
  length (faces cube) = 6
  /\ stencilValue <$> faces cube = [1; 2; 3; 4; 5; 6]
  /\ NoDup (stencilValue <$> faces cube)
  /\ (forall v : nat, v ∈ stencilValue <$> faces cube <-> 1 <= v <= 6)
  /\ forall (renderer : Renderer N) (innerCube innerSphere : ObjectGeometry)
       (identityTransformBuffer : nat) (identityBindGroup : GPU.BindGroup)
       (time : N),
       let app :=
         {| renderer := renderer; transparentCube := cube;
            innerCube := innerCube; innerSphere := innerSphere;
            identityTransformBuffer := identityTransformBuffer;
            identityBindGroup := identityBindGroup |} in
       (fun draw => (GPU.stencilReference draw, GPU.vertexBuffer0 draw,
                     GPU.vertexBuffer1 draw, GPU.indexBuffer draw,
                     GPU.indexCount draw))
         <$> take 6 (drop 6 (GPU.draws (VelesPortals.frame_pass time app)))
       = (fun '(reference, solid) =>
            (reference, Some (vertexBuffer solid), Some (colorBuffer solid),
             Some (indexBuffer solid), indexCount solid))
         <$> [(1, innerCube); (2, innerSphere); (3, innerCube);
              (4, innerSphere); (5, innerCube); (6, innerSphere)].
Proof.
  intros cube. pose proof (new_stencilValues size device) as Hvalues.
  fold cube in Hvalues.
  assert (length (faces cube) = 6) as Hlength
    by (rewrite <- (length_fmap stencilValue), Hvalues; reflexivity).
  split; [exact Hlength|]. split; [exact Hvalues|].
  split; [|split].
  - rewrite Hvalues.
    repeat (apply NoDup_cons_2;
            [rewrite ?elem_of_cons, elem_of_nil; lia|]).
    apply NoDup_nil_2.
  - intros v. rewrite Hvalues, !elem_of_cons, elem_of_nil. lia.
  - clear Hvalues. intros renderer0 inner sphere buffer bindGroup time app.
    rewrite frame_pass_draws. unfold Frame.draws.
    rewrite drop_app_length' by (rewrite length_fmap; exact Hlength).
    subst app. cbn [transparentCube]. rewrite Hlength. reflexivity.
Qed.
End CubeFacts.

Section ReadFacts.
Context {N : Type} {num : Number N}.

Lemma readFloats_all (h n : nat) (xs : list N) (device : GPU.Device N) :
  GPU.buffers device !! h = Some (GPU.Float32Data xs) -> length xs = n ->
  GPU.readFloats h 0 n device = Some xs.
Proof.
  intros Hh Hn. unfold GPU.readFloats. rewrite Hh. change (0 / 4) with 0.
  rewrite drop_0, take_ge by lia. reflexivity.
Qed.

Lemma animate_rotationMatrix (time : N) (app : VelesPortals N) :
  let angle := (time / lit 1000 * dec 3 10)%num in
  rotationMatrix (transparentCube (VelesPortals.animate time app))
  = (createRotationMatrix (angle * dec 5 10) angle (angle * dec 25 100))%num.
Proof. reflexivity. Qed.

Lemma animate_viewMatrix (time : N) (app : VelesPortals N) :
  viewMatrix (cameraController (renderer (VelesPortals.animate time app)))
  = createViewMatrix
      (position
         (CameraController.orbitCamera (time / lit 1000)%num
            (cameraController (renderer app))))
      origin up_default.
Proof. reflexivity. Qed.

Lemma length_initial_camera (canvas : Canvas N) :
  length (initial_camera canvas) = 32.
Proof. reflexivity. Qed.

Lemma take_initial_camera (canvas : Canvas N) :
  take 16 (initial_camera canvas)
  = createViewMatrix (Vec3.mk (lit 0) (lit 0) (lit 5)) origin up_default.
Proof. unfold initial_camera. by rewrite take_app_length'. Qed.
End ReadFacts.

Section FrameIEEE.
Context {m : IEEE.Libm}.

(** C2. The application initializes, and in every frame after any frames
    and resizes the render pass makes thirteen draws in this order: the
    mask of each of the six faces, with the stencil pipeline, the face's
    own stencil value (1 to 6) as reference and the rotation transform;
    for i from 0 to 5 the inner solid of index i, the cube for an even i
    and the sphere for an odd one, with the object pipeline, the reference
    i + 1 and the identity transform; then the outer shell, once, with the
    transparent pipeline and the rotation transform.  When the pass is
    submitted the rotation transform's buffer holds the rotation matrix of
    the frame's time and the identity transform's the identity matrix. *)
Theorem render_draws_in_order (canvas : Canvas float) :
  exists app0 : VelesPortals float,
    VelesPortals.initialize canvas = Some app0
    /\ stencilValue <$> faces (transparentCube app0) = [1; 2; 3; 4; 5; 6]
    /\ forall (events : list VelesPortals.Event) (time : float),
         let app := VelesPortals.run events app0 in
         let angle := (time / lit 1000 * dec 3 10)%num in
         GPU.draws (VelesPortals.frame_pass time app)
         = (Frame.mask app0 <$> faces (transparentCube app0))
           ++ (Frame.object app0 <$> seq 0 6)
           ++ [Frame.shell app0 6]
         /\ GPU.readFloats (GPU.buffer (Frame.rotation app0)) 0 16
              (device (renderer (VelesPortals.animate time app)))
            = Some (createRotationMatrix (angle * dec 5 10) angle
                      (angle * dec 25 100))%num
         /\ GPU.readFloats (GPU.buffer (identityBindGroup app0)) 0 16
              (device (renderer (VelesPortals.animate time app)))
            = Some createIdentityMatrix.
Proof.
  destruct (initialize_wired canvas) as (app0 & Hinit & Hwired & Hfaces & _);
    [vm_compute; reflexivity..|].
  exists app0. split; [exact Hinit|]. split; [exact Hfaces|].
  intros events time app angle.
  assert (scene app = scene app0) as Hscene by apply scene_run.
  pose proof (wired_handle _ _ (VelesPortals.Frame time)
                (wired_run _ events _ Hwired)) as Hframe.
  change (wired (initial_camera canvas) (VelesPortals.animate time app))
    in Hframe.
  assert (scene (VelesPortals.animate time app) = scene app0) as Hscene'
    by (rewrite <- Hscene; apply (scene_handle app (VelesPortals.Frame time))).
  destruct Hframe as (_ & _ & _ & Hidentity & Hrotation & Hlength).
  unfold scene in Hscene, Hscene'.
  injection Hscene as Hf _ _ _ _ _ _.
  injection Hscene' as _ _ Hbuffer _ _ _ Hid.
  repeat split.
  - rewrite frame_pass_draws, (Frame_draws_scene app app0)
      by (apply scene_run).
    rewrite Hf, <- (length_fmap stencilValue), Hfaces. reflexivity.
  - unfold Frame.rotation. cbn [GPU.buffer]. rewrite <- Hbuffer.
    change (rotationTransformBuffer
              (transparentCube (VelesPortals.animate time app)))
      with (rotationTransformBuffer (transparentCube app)) in Hrotation.
    rewrite (readFloats_all _ _ _ _ Hrotation Hlength).
    by rewrite animate_rotationMatrix.
  - rewrite <- Hid.
    change (identityBindGroup (VelesPortals.animate time app))
      with (identityBindGroup app) in Hidentity.
    apply (readFloats_all _ _ _ _ Hidentity).
    apply length_createIdentityMatrix.
Qed.

(** C1 does not hold: the camera's uniform buffer is written once, when it
    is created.  The application initializes, and after any frames and
    resizes the buffer still holds the view and projection matrices of
    the constructor, the view matrix at offset 0 being that of the
    position (0, 0, 5).  After the first frame, at time 0, [orbitCamera]
    has moved the camera to (0, 1.5, 5) and recomputed its view matrix,
    which is another matrix than the one in the buffer. *)
Theorem camera_buffer_is_never_updated (canvas : Canvas float) :
  exists app0 : VelesPortals float,
    VelesPortals.initialize canvas = Some app0
    /\ (forall events : list VelesPortals.Event,
          let app := VelesPortals.run events app0 in
          GPU.readFloats (GPU.buffer (cameraBindGroup (renderer app))) 0 32
            (device (renderer app))
          = Some (initial_camera canvas))
    /\ take 16 (initial_camera canvas)
       = createViewMatrix (Vec3.mk (lit 0) (lit 0) (lit 5)) origin up_default
    /\ viewMatrix
         (cameraController
            (renderer (VelesPortals.run [VelesPortals.Frame (lit 0)] app0)))
       = createViewMatrix (Vec3.mk (lit 0) (dec 15 10) (lit 5)) origin
           up_default
    /\ createViewMatrix (Vec3.mk (lit 0) (dec 15 10) (lit 5)) origin up_default
       <> createViewMatrix (Vec3.mk (lit 0 : float) (lit 0) (lit 5)) origin
            up_default.
Proof.
  destruct (initialize_wired canvas) as (app0 & Hinit & Hwired & _ & Hcamera);
    [vm_compute; reflexivity..|].
  exists app0. split; [exact Hinit|]. split; [|split; [|split]].
  - intros events app.
    destruct (wired_run _ events _ Hwired) as (_ & _ & Hbuffer & _).
    apply (readFloats_all _ _ _ _ Hbuffer), length_initial_camera.
  - apply take_initial_camera.
  - change (VelesPortals.run [VelesPortals.Frame (lit 0)] app0)
      with (VelesPortals.animate (lit 0) app0).
    rewrite animate_viewMatrix.
    apply (f_equal (fun position =>
             createViewMatrix position origin up_default)).
    vm_compute. reflexivity.
  - intros Hequal.
    apply (f_equal (fun matrix => (f32_get matrix 6 =? 0)%float)) in Hequal.
    vm_compute in Hequal. discriminate.
Qed.
End FrameIEEE.

(** * Further properties *)

(** ** utils/math.ts in exact arithmetic *)




Section MatrixExact.
Local Open Scope R_scope.


End MatrixExact.

Section VectorExact.
Local Open Scope R_scope.






End VectorExact.

Section RotationExact.
Local Open Scope R_scope.




End RotationExact.

Section ViewExact.
Local Open Scope R_scope.


End ViewExact.

Section ViewDegenerate.
Local Open Scope R_scope.




End ViewDegenerate.

Section ProjectionDepth.
Local Open Scope R_scope.


End ProjectionDepth.

(** ** The shape of the sphere *)

Section ChunkFacts.
Context {A B : Type}.

End ChunkFacts.

Section SphereShape.
Context {N : Type} {num : Number N}.


End SphereShape.

Section SphereExact.
Local Open Scope R_scope.




End SphereExact.

Section SphereGeneric.
Context {N : Type} {num : Number N}.

(** X15. The arrays of a sphere depend on its [color] argument through the
    alpha only: two colours of the same alpha give the same vertices,
    colours and indices, in every arithmetic. *)
Theorem sphere_color_is_ignored (radius widthSegments heightSegments : N)
    (color color' : Vec4.t N) (position : Vec3.t N) :
  Vec4.w color = Vec4.w color' ->
  SphereGeometry.create_arrays radius widthSegments heightSegments color
    position
  = SphereGeometry.create_arrays radius widthSegments heightSegments color'
      position.
Proof.
  intros Halpha. unfold SphereGeometry.create_arrays.
  unfold SphereGeometry.generate_colors, SphereGeometry.color_vertex.
  rewrite Halpha. reflexivity.
Qed.


End SphereGeneric.

Section TriangleFacts.

End TriangleFacts.

Section SphereWinding.
Local Open Scope R_scope.


End SphereWinding.

Section SphereTriangles.
Local Open Scope R_scope.




End SphereTriangles.

(** ** The shape of the box and of the quad *)

Section BoxShape.
Context {N : Type} {num : Number N}.

Lemma create_indices_eq :
  BoxGeometry.create_indices
  = [0; 1; 2; 0; 2; 3; 4; 6; 5; 4; 7; 6; 8; 9; 10; 8; 10; 11;
     12; 14; 13; 12; 15; 14; 16; 18; 17; 16; 19; 18;
     20; 21; 22; 20; 22; 23]%Z.
Proof. reflexivity. Qed.

(** X17. [createQuad] uploads four vertices, four colours and the six
    indices 0, 1, 2, 0, 2, 3 and returns the index count 6; its four
    vertices have the z of [position], as stored, and the input colour, as
    stored: a quad is parallel to the xy plane wherever it is put. *)
Theorem BoxGeometry_createQuad_flat (width height : N) (color : Vec4.t N)
    (position : Vec3.t N) (device : GPU.Device N) :
  let result := BoxGeometry.createQuad width height color position device in
  exists vertices colors : list N,
    GPU.buffers result.2 !! vertexBuffer result.1
      = Some (GPU.Float32Data vertices)
    /\ GPU.buffers result.2 !! colorBuffer result.1
       = Some (GPU.Float32Data colors)
    /\ GPU.buffers result.2 !! indexBuffer result.1
       = Some (GPU.Uint16Data [0; 1; 2; 0; 2; 3]%Z)
    /\ indexCount result.1 = 6%nat
    /\ length vertices = (3 * 4)%nat /\ length colors = (4 * 4)%nat
    /\ Forall (fun i =>
         Vec3.z (vertex_position vertices i) = Math_fround (Vec3.z position)
         /\ vertex_color colors i
            = Vec4.mk (Math_fround (Vec4.x color)) (Math_fround (Vec4.y color))
                (Math_fround (Vec4.z color)) (Math_fround (Vec4.w color)))
       (seq 0 4).
Proof.
  intros result. subst result. unfold BoxGeometry.createQuad. cbv zeta.
  rewrite upload_eq. cbv zeta.
  cbn [fst snd GPU.buffers vertexBuffer colorBuffer indexBuffer indexCount].
  do 2 eexists.
  split; [rewrite !lookup_insert_ne by lia; apply lookup_insert_eq|].
  split; [rewrite lookup_insert_ne by lia; apply lookup_insert_eq|].
  split; [apply lookup_insert_eq|].
  split; [reflexivity|]. split; [reflexivity|]. split; [reflexivity|].
  repeat constructor.
Qed.

(** X18. Every vertex of a box is one of its eight corners: each coordinate
    is one of the two stored bounds of its axis.  The four vertices of a
    face lie in the plane of the face (front z1, back z0, top y1, bottom
    y0, right x1, left x0), and the six indices of a face address its own
    four vertices. *)
Theorem BoxGeometry_faces (width height depth : N) (position : Vec3.t N) :
  let vertices := BoxGeometry.create_vertices width height depth position in
  let indices := BoxGeometry.create_indices in
  let x0 := Math_fround (Vec3.x position - width / lit 2)%num in
  let x1 := Math_fround (Vec3.x position + width / lit 2)%num in
  let y0 := Math_fround (Vec3.y position - height / lit 2)%num in
  let y1 := Math_fround (Vec3.y position + height / lit 2)%num in
  let z0 := Math_fround (Vec3.z position - depth / lit 2)%num in
  let z1 := Math_fround (Vec3.z position + depth / lit 2)%num in
  let vertex i := vertex_position vertices i in
  Forall (fun i => (Vec3.x (vertex i) = x0 \/ Vec3.x (vertex i) = x1)
                   /\ (Vec3.y (vertex i) = y0 \/ Vec3.y (vertex i) = y1)
                   /\ (Vec3.z (vertex i) = z0 \/ Vec3.z (vertex i) = z1))
    (seq 0 24)
  /\ Forall (fun k => Vec3.z (vertex (0 + k)) = z1
                      /\ Vec3.z (vertex (4 + k)) = z0
                      /\ Vec3.y (vertex (8 + k)) = y1
                      /\ Vec3.y (vertex (12 + k)) = y0
                      /\ Vec3.x (vertex (16 + k)) = x1
                      /\ Vec3.x (vertex (20 + k)) = x0)
       (seq 0 4)
  /\ Forall (fun face =>
       Forall (fun k =>
         4 * Z.of_nat face <= nth (face * 6 + k) indices 0 < 4 * Z.of_nat face + 4)%Z
         (seq 0 6))
       (seq 0 6).
Proof.
  intros vertices indices x0 x1 y0 y1 z0 z1 vertex.
  subst vertices indices x0 x1 y0 y1 z0 z1 vertex.
  rewrite create_indices_eq. split; [|split].
  - repeat (apply Forall_cons_2;
            [repeat split; first [left; reflexivity | right; reflexivity]|]).
    apply Forall_nil_2.
  - repeat (apply Forall_cons_2; [repeat split; reflexivity|]).
    apply Forall_nil_2.
  - repeat (apply Forall_cons_2; [|]); try apply Forall_nil_2; cbn; lia.
Qed.
End BoxShape.

Section BoxExact.
Local Open Scope R_scope.

End BoxExact.

Section MaskShape.
Context {N : Type} {num : Number N}.

(** The four vertices of a geometry have the depth [z], as stored. *)
Lemma createQuad_eq (width height : N) (color : Vec4.t N)
    (position : Vec3.t N) (device : GPU.Device N) :
  exists vertices colors : list N,
    BoxGeometry.createQuad width height color position device
    = BoxGeometry.upload vertices colors [0; 1; 2; 0; 2; 3]%Z device
    /\ length vertices = 12
    /\ Forall (fun k => Vec3.z (vertex_position vertices k)
                        = Math_fround (Vec3.z position)) (seq 0 4).
Proof.
  do 2 eexists. split; [reflexivity|]. split; [reflexivity|].
  repeat constructor.
Qed.

(** X26. The six face masks of a [TransparentCube] are quads parallel to
    the xy plane: the four vertices of the first have the z of half the
    size, those of the second minus that, and those of the other four,
    the masks of the top, bottom, right and left faces, the z of 0: these
    lie in the plane through the centre of the cube, not on its faces. *)
Theorem TransparentCube_masks_are_parallel (size : N)
    (device : GPU.Device N) :
  let cube := (TransparentCube.new size device).1 in
  let device' := (TransparentCube.new size device).2 in
  let halfSize := (size / lit 2)%num in
  Forall2 (fun face z =>
    exists vertices : list N,
      GPU.buffers device' !! vertexBuffer (geometry face)
        = Some (GPU.Float32Data vertices)
      /\ length vertices = 12
      /\ Forall (fun k => Vec3.z (vertex_position vertices k) = Math_fround z)
           (seq 0 4))
    (faces cube) [halfSize; (- halfSize)%num; lit 0; lit 0; lit 0; lit 0].
Proof.
  intros cube device' halfSize. subst cube device'.
  unfold TransparentCube.new.
  destruct (BoxGeometry.create _ _ _ _ _ _) as [outer device1].
  unfold TransparentCube.createFaces. cbn [foldl seq].
  cbn [nth TransparentCube.faceFacePositions].
  repeat match goal with
  | |- context [BoxGeometry.createQuad ?w ?h ?c ?p ?d] =>
      let vertices := fresh "vertices" in
      let Hlength := fresh "Hlength" in
      let Hflat := fresh "Hflat" in
      destruct (createQuad_eq w h c p d)
        as (vertices & ? & -> & Hlength & Hflat);
      rewrite upload_eq; cbv zeta; cbn [Vec3.z] in Hflat
  end.
  cbn [GPU.nextBuffer GPU.buffers GPU.submitted].
  unfold GPU.createBuffer, TransparentCube.updateRotation.
  cbn [fst snd faces rotationTransformBuffer GPU.nextBuffer GPU.buffers
       GPU.submitted].
  set (n := GPU.nextBuffer device1).
  repeat (apply Forall2_cons_2;
          [eexists; split;
           [rewrite writeBuffer_other
              by (cbn [geometry vertexBuffer]; lia);
            cbn [geometry vertexBuffer GPU.buffers];
            rewrite !lookup_insert_ne by lia; apply lookup_insert_eq
           |split; assumption]|]).
  apply Forall2_nil_2.
Qed.
End MaskShape.

(** ** The camera's buffer and the renderer's state *)

Section CameraBuffer.
Context {N : Type} {num : Number N}.

(** X20. [createUniformBuffer] takes the next buffer of the device, leaves
    the other buffers as they are, and the new buffer reads back the view
    matrix of the camera at the byte offset 0 and its projection matrix at
    the byte offset 64. *)
Theorem createUniformBuffer_layout (canvas : Canvas N)
    (position : Vec3.t N) (device : GPU.Device N) :
  let camera := CameraController.new position canvas in
  let result := CameraController.createUniformBuffer camera device in
  result.1 = GPU.nextBuffer device
  /\ GPU.readFloats result.1 0 16 result.2 = Some (viewMatrix camera)
  /\ GPU.readFloats result.1 64 16 result.2 = Some (projectionMatrix camera)
  /\ GPU.readFloats result.1 0 32 result.2
     = Some (viewMatrix camera ++ projectionMatrix camera)
  /\ forall h : nat, h <> result.1 ->
       GPU.buffers result.2 !! h = GPU.buffers device !! h.
Proof.
  intros camera result. subst result.
  rewrite createUniformBuffer_eq by reflexivity. cbn [fst snd].
  unfold GPU.readFloats. cbn [GPU.buffers]. rewrite lookup_insert_eq.
  repeat split. intros h Hh. by apply lookup_insert_ne.
Qed.
End CameraBuffer.

Section RendererState.
Context {N : Type} {num : Number N}.

Lemma current_handle (app : VelesPortals N) (event : VelesPortals.Event) :
  current (renderer app) ->
  current (renderer (VelesPortals.handle app event)).
Proof.
  intros (Hdepth & Hprojection & Hview).
  destruct event as [time|innerWidth innerHeight];
    (split; [|split]);
    first [reflexivity | exact Hdepth | exact Hprojection | exact Hview].
Qed.

Lemma current_run (events : list VelesPortals.Event) (app : VelesPortals N) :
  current (renderer app) ->
  current (renderer (VelesPortals.run events app)).
Proof.
  unfold VelesPortals.run. revert app.
  induction events as [|event events IH]; intros app Happ; cbn [foldl];
    [done|].
  by apply IH, current_handle.
Qed.

Lemma initialize_renderer (element : Canvas N) (app : VelesPortals N) :
  VelesPortals.initialize element = Some app ->
  canvas (renderer app) = element
  /\ depthStencilTexture (renderer app) = (width element, height element)
  /\ cameraController (renderer app)
     = CameraController.new (Vec3.mk (lit 0) (lit 0) (lit 5)) element.
Proof.
  unfold VelesPortals.initialize.
  destruct (TransparentCube.new _ _) as [cube device2].
  destruct (BoxGeometry.create _ _ _ _ _ _) as [inner device3].
  destruct (SphereGeometry.create _ _ _ _ _ _) as [[sphere device4]|];
    [|discriminate].
  destruct (GPU.createBuffer _ _ _) as [buffer device5].
  intros [= <-]. unfold VelesPortals.with_device, Renderer.initialize.
  cbn [renderer canvas depthStencilTexture cameraController].
  destruct (CameraController.createUniformBuffer _ _) as [buffer0 device1].
  cbn [renderer canvas depthStencilTexture cameraController].
  repeat split.
Qed.
End RendererState.

Section RendererIEEE.
Context {m : IEEE.Libm}.

(** X21. After initialization and after any frames and resizes the
    renderer's own state is current: the depth-stencil texture has the
    size of the canvas, the projection matrix is the one of the canvas's
    aspect ratio (field of view 45 degrees, planes 0.1 and 100), the view
    matrix the one of the camera's position; and a resize sets the canvas
    to the window's size. *)
Theorem renderer_follows_canvas (element : Canvas float) :
  exists app0 : VelesPortals float,
    VelesPortals.initialize element = Some app0
    /\ canvas (renderer app0) = element
    /\ forall (events : list VelesPortals.Event),
         let app := VelesPortals.run events app0 in
         current (renderer app)
         /\ forall innerWidth innerHeight : float,
              canvas
                (renderer
                   (VelesPortals.handle app
                      (VelesPortals.Resize innerWidth innerHeight)))
              = {| width := innerWidth; height := innerHeight |}.
Proof.
  destruct (initialize_wired element) as (app0 & Hinit & _);
    [vm_compute; reflexivity..|].
  exists app0. split; [exact Hinit|].
  destruct (initialize_renderer element app0 Hinit) as (Hcanvas & Hdepth & Hcamera).
  split; [done|]. intros events app. split; [|reflexivity].
  apply current_run. unfold current. rewrite Hdepth, Hcamera, Hcanvas.
  repeat split.
Qed.
End RendererIEEE.

(** ** Draws within the bounds of their buffers *)

Section SoundFacts.
Context {N : Type} {num : Number N}.

Lemma sound_extends (device device' : GPU.Device N) (rotation : nat)
    (g : ObjectGeometry) :
  extends device device' -> sound device rotation g ->
  sound device' rotation g.
Proof.
  intros [Hnext Hsame] [Hhandles (vs & cs & ixs & Hv & Hc & Hi & Hrest)].
  apply Forall_cons in Hhandles as [[? ?] Hhandles].
  apply Forall_cons in Hhandles as [[? ?] Hhandles].
  apply Forall_cons in Hhandles as [[? ?] _].
  split.
  - repeat (apply Forall_cons_2; [split; [done|lia]|]). apply Forall_nil_2.
  - exists vs, cs, ixs. rewrite !Hsame by done. done.
Qed.

Lemma sound_writeBuffer (device : GPU.Device N) (rotation h offset : nat)
    (data : GPU.BufferData N) (dataOffset size : nat) (g : ObjectGeometry) :
  h ∉ [vertexBuffer g; colorBuffer g; indexBuffer g] ->
  sound device rotation g ->
  sound (GPU.writeBuffer h offset data dataOffset size device) rotation g.
Proof.
  intros Hh [Hhandles (vs & cs & ixs & Hv & Hc & Hi & Hrest)].
  rewrite !not_elem_of_cons in Hh. destruct Hh as (? & ? & ? & _).
  split.
  - eapply Forall_impl; [exact Hhandles|]. intros h' [? ?].
    by rewrite writeBuffer_nextBuffer.
  - exists vs, cs, ixs. rewrite !writeBuffer_other by done. done.
Qed.

Lemma sound_submit (device : GPU.Device N) (rotation : nat)
    (commands : list GPU.RenderCommand) (g : ObjectGeometry) :
  sound device rotation g -> sound (GPU.submit commands device) rotation g.
Proof. done. Qed.

Lemma upload_sound (vertices colors : list N) (indices : list Z)
    (device : GPU.Device N) (rotation : nat) :
  Forall (fun i => 0 <= i < Z.of_nat (length vertices / 3))%Z indices ->
  length colors / 4 = length vertices / 3 ->
  rotation < GPU.nextBuffer device \/ GPU.nextBuffer device + 3 <= rotation ->
  sound (BoxGeometry.upload vertices colors indices device).2 rotation
    (BoxGeometry.upload vertices colors indices device).1.
Proof.
  intros Hindices Hcolors Hrotation. rewrite upload_eq. cbv zeta.
  cbn [fst snd]. split.
  - cbn [vertexBuffer colorBuffer indexBuffer GPU.nextBuffer].
    repeat (apply Forall_cons_2; [split; lia|]). apply Forall_nil_2.
  - exists vertices, colors, indices.
    cbn [vertexBuffer colorBuffer indexBuffer indexCount GPU.buffers].
    split; [rewrite !lookup_insert_ne by lia; apply lookup_insert_eq|].
    split; [rewrite lookup_insert_ne by lia; apply lookup_insert_eq|].
    split; [apply lookup_insert_eq|]. done.
Qed.

Lemma upload_nextBuffer (vertices colors : list N) (indices : list Z)
    (device : GPU.Device N) :
  GPU.nextBuffer (BoxGeometry.upload vertices colors indices device).2
  = GPU.nextBuffer device + 3.
Proof. rewrite upload_eq. cbn [snd GPU.nextBuffer]. lia. Qed.

Lemma create_sound (width height depth : N) (color : Vec4.t N)
    (position : Vec3.t N) (device : GPU.Device N) (rotation : nat) :
  rotation < GPU.nextBuffer device \/ GPU.nextBuffer device + 3 <= rotation ->
  sound (BoxGeometry.create width height depth color position device).2
    rotation (BoxGeometry.create width height depth color position device).1.
Proof.
  intros Hrotation. apply upload_sound; [|reflexivity|exact Hrotation].
  unfold BoxGeometry.create_indices, Uint16Array_from.
  cbn [fmap list_fmap]. repeat constructor; cbv; discriminate.
Qed.

Lemma createQuad_sound (width height : N) (color : Vec4.t N)
    (position : Vec3.t N) (device : GPU.Device N) (rotation : nat) :
  rotation < GPU.nextBuffer device \/ GPU.nextBuffer device + 3 <= rotation ->
  sound (BoxGeometry.createQuad width height color position device).2
    rotation (BoxGeometry.createQuad width height color position device).1.
Proof.
  intros Hrotation. apply upload_sound; [|reflexivity|exact Hrotation].
  unfold Uint16Array_from.
  cbn [fmap list_fmap]. repeat constructor; cbv; discriminate.
Qed.

Lemma createFaces_sound (size : N) (faces0 : list (CubeFace N))
    (device : GPU.Device N) (rotation : nat) :
  GPU.nextBuffer device + 18 <= rotation ->
  Forall (fun face => sound device rotation (geometry face)) faces0 ->
  let result := TransparentCube.createFaces size faces0 device in
  Forall (fun face => sound result.2 rotation (geometry face)) result.1
  /\ GPU.nextBuffer result.2 = GPU.nextBuffer device + 18.
Proof.
  unfold TransparentCube.createFaces.
  change 18 with (3 * length (seq 0 6)). generalize (seq 0 6). intros l.
  revert faces0 device. induction l as [|i l IH]; intros faces0 device Hr H0;
    cbn [foldl length] in *.
  - cbn [fst snd]. split; [exact H0|lia].
  - match goal with
    | |- context [BoxGeometry.createQuad ?w ?h ?c ?p device] =>
        pose proof (createQuad_sound w h c p device rotation
                      ltac:(right; lia)) as Hquad;
        pose proof (createQuad_extends w h c p device) as Hextends;
        assert (GPU.nextBuffer (BoxGeometry.createQuad w h c p device).2
                = GPU.nextBuffer device + 3) as Hn
          by apply upload_nextBuffer;
        destruct (BoxGeometry.createQuad w h c p device) as [g device']
    end.
    cbn [fst snd] in *.
    match goal with
    | |- context [foldl _ (?faces1, device') l] =>
        destruct (IH faces1 device') as [Hall Hcount]
    end.
    + lia.
    + apply Forall_app. split.
      * eapply Forall_impl; [exact H0|]. intros face Hface.
        by eapply sound_extends.
      * by apply Forall_singleton.
    + split; [exact Hall|]. rewrite Hcount. lia.
Qed.
End SoundFacts.

Section SafeFacts.
Context {N : Type} {num : Number N}.

Lemma sound_writeBuffer_rotation (device : GPU.Device N)
    (rotation offset : nat) (data : GPU.BufferData N)
    (dataOffset size : nat) (g : ObjectGeometry) :
  sound device rotation g ->
  sound (GPU.writeBuffer rotation offset data dataOffset size device)
    rotation g.
Proof.
  intros Hg. apply sound_writeBuffer; [|exact Hg].
  destruct Hg as [Hhandles _]. intros Hin.
  rewrite Forall_forall in Hhandles. by destruct (Hhandles _ Hin).
Qed.

Lemma sound_writeBuffer_next (device : GPU.Device N)
    (rotation offset : nat) (data : GPU.BufferData N)
    (dataOffset size : nat) (g : ObjectGeometry) (h : nat) :
  GPU.nextBuffer device <= h ->
  sound device rotation g ->
  sound (GPU.writeBuffer h offset data dataOffset size device) rotation g.
Proof.
  intros Hh Hg. apply sound_writeBuffer; [|exact Hg].
  destruct Hg as [Hhandles _]. intros Hin.
  rewrite Forall_forall in Hhandles. destruct (Hhandles _ Hin). lia.
Qed.

Lemma new_sound (size : N) (device : GPU.Device N) :
  let cube := (TransparentCube.new size device).1 in
  let device' := (TransparentCube.new size device).2 in
  let rotation := rotationTransformBuffer cube in
  rotation = GPU.nextBuffer device + 21
  /\ GPU.nextBuffer device' = GPU.nextBuffer device + 22
  /\ sound device' rotation (outerCube cube)
  /\ Forall (fun face => sound device' rotation (geometry face)) (faces cube).
Proof.
  unfold TransparentCube.new.
  set (n := GPU.nextBuffer device).
  match goal with
  | |- context [BoxGeometry.create ?w ?h ?d ?c ?p device] =>
      pose proof (create_sound w h d c p device (n + 21)
                    ltac:(right; lia)) as Houter;
      assert (GPU.nextBuffer (BoxGeometry.create w h d c p device).2
              = n + 3) as Hn1 by apply upload_nextBuffer;
      destruct (BoxGeometry.create w h d c p device) as [outer device1]
  end.
  cbn [fst snd] in Houter, Hn1.
  pose proof (createFaces_sound size [] device1 (n + 21) ltac:(lia)
                (Forall_nil_2 _)) as [Hfaces Hn2].
  pose proof (createFaces_extends size [] device1) as H12.
  destruct (TransparentCube.createFaces size [] device1) as [faces' device2].
  cbn [fst snd] in Hfaces, Hn2, H12.
  pose proof (createBuffer_extends 64 GPU.UNIFORM device2) as (H23 & Hh & Hn3).
  destruct (GPU.createBuffer 64 GPU.UNIFORM device2) as [buffer device3].
  cbn [fst snd] in H23, Hh, Hn3. subst buffer.
  unfold TransparentCube.updateRotation.
  cbn [fst snd rotationTransformBuffer outerCube faces]. cbv zeta.
  assert (GPU.nextBuffer device2 = n + 21) as Hrotation by lia.
  rewrite Hrotation.
  split; [reflexivity|]. split; [rewrite writeBuffer_nextBuffer; lia|].
  split.
  - apply sound_writeBuffer_rotation.
    eapply sound_extends; [exact H23|].
    eapply sound_extends; [exact H12|exact Houter].
  - eapply Forall_impl; [exact Hfaces|]. intros face Hface. cbn beta in *.
    apply sound_writeBuffer_rotation.
    eapply sound_extends; [exact H23|exact Hface].
Qed.

Lemma sphere_arrays_in_bounds (radius : N) (color : Vec4.t N)
    (position : Vec3.t N) (W H : Z) :
  (0 <= W)%Z -> (1 <= H)%Z ->
  let vertices := Float32Array_from (sphere_vertices radius position W H) in
  let colors :=
    SphereGeometry.generate_colors (sphere_vertices radius position W H)
      radius color position in
  let indices := Uint16Array_from (sphere_indices W H) in
  Forall (fun i => 0 <= i < Z.of_nat (length vertices / 3))%Z indices
  /\ length colors / 4 = length vertices / 3.
Proof.
  intros HW HH vertices colors indices. subst vertices colors indices.
  unfold Float32Array_from. rewrite length_fmap, length_generate_colors.
  pose proof (length_sphere_vertices radius position W H ltac:(lia)
                ltac:(lia)) as Hlength.
  assert (length (sphere_vertices radius position W H) / 3
          = Z.to_nat (W + 1) * Z.to_nat (H + 1)) as Hcount.
  { replace (length (sphere_vertices radius position W H))
      with (Z.to_nat (W + 1) * Z.to_nat (H + 1) * 3) by nia.
    apply Nat.div_mul. lia. }
  rewrite Hcount. split; [|apply Nat.div_mul; lia].
  apply Uint16Array_from_in_range.
  apply (quads_in_range W H); lia.
Qed.

Lemma safe_handle (app : VelesPortals N) (event : VelesPortals.Event) :
  safe app -> safe (VelesPortals.handle app event).
Proof.
  intros Happ. destruct event as [time|innerWidth innerHeight];
    [|exact Happ].
  unfold safe in *. eapply Forall_impl; [exact Happ|].
  intros g Hg. cbn beta in *.
  apply sound_submit, sound_writeBuffer_rotation. exact Hg.
Qed.

Lemma safe_run (events : list VelesPortals.Event) (app : VelesPortals N) :
  safe app -> safe (VelesPortals.run events app).
Proof.
  unfold VelesPortals.run. revert app.
  induction events as [|event events IH]; intros app Happ; cbn [foldl];
    [done|].
  by apply IH, safe_handle.
Qed.

Lemma nextBuffer_handle (app : VelesPortals N) (event : VelesPortals.Event) :
  GPU.nextBuffer (device (renderer (VelesPortals.handle app event)))
  = GPU.nextBuffer (device (renderer app)).
Proof.
  destruct event as [time|innerWidth innerHeight]; [|reflexivity].
  apply writeBuffer_nextBuffer.
Qed.

Lemma nextBuffer_run (events : list VelesPortals.Event)
    (app : VelesPortals N) :
  GPU.nextBuffer (device (renderer (VelesPortals.run events app)))
  = GPU.nextBuffer (device (renderer app)).
Proof.
  unfold VelesPortals.run. revert app.
  induction events as [|event events IH]; intros app; cbn [foldl]; [done|].
  by rewrite IH, nextBuffer_handle.
Qed.

Lemma initialize_safe (element : Canvas N) :
  Math_max 3 (Math_floor (N:=N) (lit 24)) = Int 24 ->
  Math_max 2 (Math_floor (N:=N) (lit 18)) = Int 18 ->
  exists app : VelesPortals N,
    VelesPortals.initialize element = Some app
    /\ safe app
    /\ GPU.nextBuffer (device (renderer app)) = 30.
Proof.
  intros HW HH. unfold VelesPortals.initialize, Renderer.initialize.
  rewrite createUniformBuffer_eq by reflexivity. cbn [device].
  set (device1 := {| GPU.buffers := _ |}).
  assert (GPU.nextBuffer device1 = 1) as Hn1 by reflexivity.
  pose proof (new_sound (lit 2) device1) as (Hrotation & Hn2 & Houter & Hfaces).
  destruct (TransparentCube.new (lit 2) device1) as [cube device2].
  cbn [fst snd] in *. rewrite Hn1 in Hrotation, Hn2.
  match goal with
  | |- context [BoxGeometry.create ?w ?h ?d ?c ?p device2] =>
      pose proof (create_sound w h d c p device2
                    (rotationTransformBuffer cube) ltac:(left; lia))
        as Hinner;
      pose proof (create_extends w h d c p device2) as H23;
      assert (GPU.nextBuffer (BoxGeometry.create w h d c p device2).2
              = GPU.nextBuffer device2 + 3) as Hn3
        by apply upload_nextBuffer;
      destruct (BoxGeometry.create w h d c p device2) as [inner device3]
  end.
  cbn [fst snd] in *. unfold SphereGeometry.create.
  rewrite (create_arrays_closed_form _ _ _ _ _ 24 18) by assumption.
  match goal with
  | |- context [BoxGeometry.upload ?v ?c ?i device3] =>
      destruct (sphere_arrays_in_bounds (dec 6 10)
                  (Vec4.mk (dec 2 10) (dec 2 10) (lit 1) (lit 1))
                  (Vec3.mk (lit 0) (lit 0) (lit 0)) 24 18
                  ltac:(lia) ltac:(lia)) as [Hindices Hcolors];
      pose proof (upload_sound v c i device3
                    (rotationTransformBuffer cube) Hindices Hcolors
                    ltac:(left; lia)) as Hsphere;
      pose proof (upload_extends v c i device3) as H34;
      pose proof (upload_nextBuffer v c i device3) as Hn4;
      destruct (BoxGeometry.upload v c i device3) as [sphere device4]
  end.
  cbn [fst snd] in *.
  pose proof (createBuffer_extends 64 GPU.UNIFORM device4) as (H45 & Hh & Hn5).
  destruct (GPU.createBuffer 64 GPU.UNIFORM device4) as [buffer device5].
  cbn [fst snd] in *. subst buffer.
  eexists. split; [reflexivity|].
  unfold safe, geometries, VelesPortals.with_device.
  cbn [renderer transparentCube innerCube innerSphere device].
  assert (forall g, sound device4 (rotationTransformBuffer cube) g ->
            sound (GPU.writeBuffer (GPU.nextBuffer device4) 0
                     (GPU.Float32Data createIdentityMatrix) 0 16 device5)
              (rotationTransformBuffer cube) g) as Hlast.
  { intros g Hg. apply sound_writeBuffer; [|by eapply sound_extends].
    destruct Hg as [Hhandles _]. intros Hin.
    rewrite Forall_forall in Hhandles. destruct (Hhandles _ Hin). lia. }
  split; [|rewrite writeBuffer_nextBuffer; lia].
  repeat apply Forall_cons_2.
  - apply Hlast. eapply sound_extends; [exact H34|].
    eapply sound_extends; [exact H23|exact Houter].
  - apply Hlast. eapply sound_extends; [exact H34|exact Hinner].
  - apply Hlast. exact Hsphere.
  - apply Forall_fmap. eapply Forall_impl; [exact Hfaces|].
    intros face Hface. cbn beta in *. unfold compose. apply Hlast.
    eapply sound_extends; [exact H34|].
    eapply sound_extends; [exact H23|exact Hface].
Qed.
End SafeFacts.

Section Submissions.
Context {N : Type} {num : Number N}.

Lemma submitted_writeBuffer (h offset : nat) (data : GPU.BufferData N)
    (dataOffset size : nat) (device : GPU.Device N) :
  GPU.submitted (GPU.writeBuffer h offset data dataOffset size device)
  = GPU.submitted device.
Proof. unfold GPU.writeBuffer. repeat case_match; reflexivity. Qed.

Lemma submitted_handle (app : VelesPortals N) (event : VelesPortals.Event) :
  length (GPU.submitted
            (device (renderer (VelesPortals.handle app event))))
  = length (GPU.submitted (device (renderer app)))
    + match event with
      | VelesPortals.Frame _ => 1
      | VelesPortals.Resize _ _ => 0
      end.
Proof.
  destruct event as [time|innerWidth innerHeight]; [|cbn; lia].
  unfold VelesPortals.handle, VelesPortals.animate, VelesPortals.render,
    TransparentCube.updateRotation, Renderer.endRenderPass, GPU.submit,
    VelesPortals.with_device.
  cbn [renderer device GPU.submitted].
  by rewrite length_app, submitted_writeBuffer.
Qed.
End Submissions.

Section FramesIEEE.
Context {m : IEEE.Libm}.

(** X22. Initialization creates 30 buffers; no frame and no resize creates
    another; every frame submits one command buffer and a resize none. *)
Theorem events_allocate_no_buffer (element : Canvas float) :
  exists app0 : VelesPortals float,
    VelesPortals.initialize element = Some app0
    /\ forall events : list VelesPortals.Event,
         let gpu0 := device (renderer app0) in
         let gpu := device (renderer (VelesPortals.run events app0)) in
         GPU.nextBuffer gpu0 = 30 /\ GPU.nextBuffer gpu = 30
         /\ length (GPU.submitted gpu)
            = length (GPU.submitted gpu0)
              + sum_list_with (fun event =>
                                 match event with
                                 | VelesPortals.Frame _ => 1
                                 | VelesPortals.Resize _ _ => 0
                                 end) events.
Proof.
  destruct (initialize_safe element) as (app0 & Hinit & _ & Hnext);
    [vm_compute; reflexivity..|].
  exists app0. split; [exact Hinit|]. intros events gpu0 gpu. subst gpu0 gpu.
  split; [exact Hnext|]. split; [by rewrite nextBuffer_run|].
  clear. unfold VelesPortals.run. revert app0.
  induction events as [|event events IH]; intros app0;
    cbn [foldl sum_list_with]; [lia|].
  rewrite IH, submitted_handle. lia.
Qed.

(** X23. Every draw of every frame reads within its buffers: the vertex
    and index buffers bound at the draw are those of one geometry, the
    index buffer holds exactly the [indexCount] indices drawn, every index
    is below the number of vertices in the vertex buffer, and outside the
    mask pass the colour buffer bound in slot 1 holds a colour for each
    vertex. *)
Theorem draws_read_in_bounds (element : Canvas float) :
  exists app0 : VelesPortals float,
    VelesPortals.initialize element = Some app0
    /\ forall (events : list VelesPortals.Event) (time : float),
         let app := VelesPortals.run events app0 in
         let gpu := device (renderer (VelesPortals.animate time app)) in
         Forall (fun draw =>
           exists geometry : ObjectGeometry,
             in_bounds gpu geometry
             /\ GPU.vertexBuffer0 draw = Some (vertexBuffer geometry)
             /\ GPU.indexBuffer draw = Some (indexBuffer geometry)
             /\ GPU.indexCount draw = indexCount geometry
             /\ (GPU.pipeline draw = Some GPU.stencilPipeline
                 \/ GPU.vertexBuffer1 draw = Some (colorBuffer geometry)))
           (GPU.draws (VelesPortals.frame_pass time app)).
Proof.
  destruct (initialize_safe element) as (app0 & Hinit & Hsafe & _);
    [vm_compute; reflexivity..|].
  exists app0. split; [exact Hinit|]. intros events time app gpu.
  pose proof (safe_handle _ (VelesPortals.Frame time)
                (safe_run events _ Hsafe)) as Hframe.
  fold app in Hframe.
  change (VelesPortals.handle app (VelesPortals.Frame time))
    with (VelesPortals.animate time app) in Hframe.
  unfold safe in Hframe. fold gpu in Hframe.
  change (geometries (VelesPortals.animate time app)) with (geometries app)
    in Hframe.
  assert (Forall (in_bounds gpu) (geometries app)) as Hall
    by (eapply Forall_impl; [exact Hframe|]; by intros g [_ Hg]).
  clear Hframe. unfold geometries in Hall.
  apply Forall_cons in Hall as [Houter Hall].
  apply Forall_cons in Hall as [Hinner Hall].
  apply Forall_cons in Hall as [Hsphere Hfaces].
  rewrite Forall_fmap in Hfaces.
  rewrite frame_pass_draws. unfold Frame.draws.
  rewrite !Forall_app. split; [|split].
  - rewrite Forall_fmap. eapply Forall_impl; [exact Hfaces|].
    intros face Hface. exists (geometry face).
    split; [exact Hface|]. repeat split. by left.
  - rewrite Forall_fmap. apply Forall_forall. intros i _.
    exists (Frame.solid app i). split.
    + unfold Frame.solid. by destruct (Nat.even i).
    + repeat split. by right.
  - apply Forall_singleton. exists (outerCube (transparentCube app)).
    split; [exact Houter|]. repeat split. by right.
Qed.
End FramesIEEE.

(** ** The stencil test at a pixel *)

Section StencilFacts.
Import DepthStencil.
Context {N : Type} {num : Number N}.












End StencilFacts.

Section PixelFacts.
Import DepthStencil.
Context {N : Type} {num : Number N}.


End PixelFacts.

Section MaskFacts.
Import DepthStencil.
Context {N : Type} {num : Number N}.

End MaskFacts.

Section PortalFacts.
Import DepthStencil.
Context {N : Type} {num : Number N}.


End PortalFacts.

Section PortalIEEE.
Import DepthStencil.
Context {m : IEEE.Libm}.

End PortalIEEE.

(** ** Shader bindings and the pipeline layout *)

Section BindingFacts.

(** X25. The vertex shaders of the object and transparent pipelines
    declare their two uniforms at bindings that the pipeline layout has;
    the stencil vertex shader declares its transform at group 0,
    binding 1, which the layout has not, and nothing at group 1, where
    [renderStencilMask] binds the transform. *)
Theorem stencil_shader_binding_is_not_provided :
  (forall pipeline : GPU.Pipeline,
     forallb Bindings.provided (Bindings.vertexShader pipeline) = true
     <-> pipeline <> GPU.stencilPipeline)
  /\ filter (fun resource => Bindings.provided resource = false)
       Bindings.stencilVertexShader
     = [{| Bindings.group := 0; Bindings.binding := 1 |}]
  /\ forall (renderPass : list GPU.RenderCommand) (geometry : ObjectGeometry)
       (stencilValue : nat) (bindGroup transformBindGroup : GPU.BindGroup),
       exists recorded : list GPU.RenderCommand,
         StencilManager.renderStencilMask renderPass geometry stencilValue
           bindGroup transformBindGroup
         = renderPass ++ recorded
         /\ GPU.setPipeline GPU.stencilPipeline ∈ recorded
         /\ GPU.setBindGroup 1 transformBindGroup ∈ recorded
         /\ Forall (fun resource => Bindings.group resource <> 1)
              Bindings.stencilVertexShader.
Proof.
  split; [|split].
  - intros pipeline. destruct pipeline; split; try done.
  - reflexivity.
  - intros renderPass geometry0 stencilValue0 bindGroup transformBindGroup.
    eexists. split; [reflexivity|].
    rewrite !elem_of_cons. split; [by left|]. split; [by do 3 right; left|].
    repeat constructor; discriminate.
Qed.
End BindingFacts.

(** ** Instances *)

Section Witnesses.
Local Open Scope R_scope.







(** The blue of the inner sphere against red. *)
Lemma sphere_color_is_ignored_witness :
  SphereGeometry.create_arrays (N:=R) (6 / 10) 24 18 (Vec4.mk (2 / 10) (2 / 10) 1 1)
    (Vec3.mk 0 0 0)
  = SphereGeometry.create_arrays (6 / 10) 24 18 (Vec4.mk 1 0 0 1)
      (Vec3.mk 0 0 0).
Proof. apply sphere_color_is_ignored. reflexivity. Defined.

End Witnesses.

Section WitnessesIEEE.
#[local] Existing Instance IEEE.series.

End WitnessesIEEE.
